(** * ConferencePeerConnectionChannel: a shallow embedding

    Source: talk/owt/sdk/conference/conferencepeerconnectionchannel.cc

    The channel is a C++ object whose member functions mutate its fields,
    post closures to a shared task queue and call out to the signaling
    channel, the peer connection and user callbacks.  The embedding keeps
    the fields in a record, threads a [World] (channel, task queue, trace
    of outward calls) through a small state-and-failure monad, and turns
    every closure the source posts into a constructor of [Task]. *)

From Stdlib Require Import Bool List String ZArith NArith Lia.
From Stdlib Require Import Floats.SpecFloat.
Import ListNotations.
Open Scope string_scope.

(** ** Base types (owt::base, owt::conference headers) *)

(** A C++ [double], as the binary64 value it holds (finite values with
    their 53-bit mantissa).  The option check applies only [==] and [!=] to
    doubles, which is the IEEE-754 comparison of [SpecFloat]: NaN equals
    nothing, the two zeros are equal. *)
Definition double : Type := spec_float.
Definition double_eqb (a b : double) : bool := SFeqb a b.
Definition double_zero : double := S754_zero false.
(** [d != 0] *)
Definition double_ne_zero (d : double) : bool := negb (double_eqb d double_zero).

(** [struct Resolution { unsigned long width, height; }] with its
    [operator==]. *)
Record Resolution := { width : N; height : N }.
Definition Resolution_eqb (a b : Resolution) : bool :=
  (width a =? width b)%N && (height a =? height b)%N.

Module VideoSubscriptionConstraints.
Record t := {
  disabled : bool;
  resolution : Resolution;
  frameRate : double;
  bitrateMultiplier : double;
  keyFrameInterval : N;
  rid : string
}.
End VideoSubscriptionConstraints.

Module AudioSubscriptionConstraints.
Record t := { disabled : bool }.
End AudioSubscriptionConstraints.

Module SubscribeOptions.
Record t := {
  audio : AudioSubscriptionConstraints.t;
  video : VideoSubscriptionConstraints.t
}.
End SubscribeOptions.

Module VideoPublicationSettings.
Record t := {
  resolution : Resolution;
  frame_rate : double;
  bitrate : N;
  keyframe_interval : N;
  rid : string;
  track_id : string
}.
End VideoPublicationSettings.

Module PublicationSettings.
Record t := { video : list VideoPublicationSettings.t }.
End PublicationSettings.

Module VideoSubscriptionCapabilities.
Record t := {
  resolutions : list Resolution;
  frame_rates : list double;
  bitrate_multipliers : list double;
  keyframe_intervals : list N
}.
End VideoSubscriptionCapabilities.

Module SubscriptionCapabilities.
Record t := { video : VideoSubscriptionCapabilities.t }.
End SubscriptionCapabilities.

(** ** SubOptionAllowed (source lines 491-579) *)

(** [for (auto video_setting : publication_settings.video)
       if (video_setting.rid == subscribe_options.video.rid) return true;
     return false;] *)
Fixpoint rid_search (rid : string) (settings : list VideoPublicationSettings.t)
  : bool :=
  match settings with
  | [] => false
  | video_setting :: rest =>
      if String.eqb (VideoPublicationSettings.rid video_setting) rid
      then true
      else rid_search rid rest
  end.

(** The three flags the second loop may raise. *)
Record SupportFlags := {
  resolution_supported : bool;
  frame_rate_supported : bool;
  keyframe_interval_supported : bool
}.

(** Body of the loop over [publication_settings.video] (lines 517-536). *)
Definition settings_loop_body (v : VideoSubscriptionConstraints.t)
  (flags : SupportFlags) (video_setting : VideoPublicationSettings.t)
  : SupportFlags :=
  let res := VideoSubscriptionConstraints.resolution v in
  let sres := VideoPublicationSettings.resolution video_setting in
  {| resolution_supported :=
       if negb (width res =? 0)%N && negb (height res =? 0)%N &&
          (width sres =? width res)%N && (height sres =? height res)%N
       then true else resolution_supported flags;
     frame_rate_supported :=
       if double_ne_zero (VideoSubscriptionConstraints.frameRate v) &&
          double_eqb (VideoPublicationSettings.frame_rate video_setting)
                     (VideoSubscriptionConstraints.frameRate v)
       then true else frame_rate_supported flags;
     keyframe_interval_supported :=
       if negb (VideoSubscriptionConstraints.keyFrameInterval v =? 0)%N &&
          (VideoPublicationSettings.keyframe_interval video_setting =?
           VideoSubscriptionConstraints.keyFrameInterval v)%N
       then true else keyframe_interval_supported flags |}.

Definition SubOptionAllowed
  (subscribe_options : SubscribeOptions.t)
  (publication_settings : PublicationSettings.t)
  (subscription_caps : SubscriptionCapabilities.t) : bool :=
  let v := SubscribeOptions.video subscribe_options in
  let caps := SubscriptionCapabilities.video subscription_caps in
  let res := VideoSubscriptionConstraints.resolution v in
  let frameRate := VideoSubscriptionConstraints.frameRate v in
  let keyFrameInterval := VideoSubscriptionConstraints.keyFrameInterval v in
  let bitrateMultiplier := VideoSubscriptionConstraints.bitrateMultiplier v in
  if negb (String.eqb (VideoSubscriptionConstraints.rid v) "") then
    rid_search (VideoSubscriptionConstraints.rid v)
               (PublicationSettings.video publication_settings)
  else
    let flags :=
      fold_left (settings_loop_body v)
        (PublicationSettings.video publication_settings)
        {| resolution_supported := (width res =? 0)%N && (height res =? 0)%N;
           frame_rate_supported := double_eqb frameRate double_zero;
           keyframe_interval_supported := (keyFrameInterval =? 0)%N |} in
    let bitrate_multiplier_supported := double_eqb bitrateMultiplier double_zero in
    let resolution_supported' :=
      if negb (width res =? 0)%N && negb (height res =? 0)%N then
        if existsb (fun format => Resolution_eqb format res)
                   (VideoSubscriptionCapabilities.resolutions caps)
        then true else resolution_supported flags
      else resolution_supported flags in
    let frame_rate_supported' :=
      if double_ne_zero frameRate then
        if existsb (fun format => double_eqb format frameRate)
                   (VideoSubscriptionCapabilities.frame_rates caps)
        then true else frame_rate_supported flags
      else frame_rate_supported flags in
    let keyframe_interval_supported' :=
      if negb (keyFrameInterval =? 0)%N then
        if existsb (fun format => (format =? keyFrameInterval)%N)
                   (VideoSubscriptionCapabilities.keyframe_intervals caps)
        then true else keyframe_interval_supported flags
      else keyframe_interval_supported flags in
    let bitrate_multiplier_supported' :=
      if double_ne_zero bitrateMultiplier then
        if existsb (fun format => double_eqb format bitrateMultiplier)
                   (VideoSubscriptionCapabilities.bitrate_multipliers caps)
        then true else bitrate_multiplier_supported
      else bitrate_multiplier_supported in
    resolution_supported' && frame_rate_supported' &&
    keyframe_interval_supported' && bitrate_multiplier_supported'.

(** A resolution counts as requested when both dimensions are non-zero
    (the guard of lines 518-519 and 538-539). *)
Definition resolution_requested (v : VideoSubscriptionConstraints.t) : bool :=
  negb (width (VideoSubscriptionConstraints.resolution v) =? 0)%N &&
  negb (height (VideoSubscriptionConstraints.resolution v) =? 0)%N.


(** ** Per-option support, as the specification words it

    Each option is supported when it is unspecified (zero) or when it is
    requested and matched by the publication settings or by the capability
    ranges.  For a resolution, zero means both dimensions are zero and
    requested means both are non-zero.  The publication settings carry no
    bitrate multiplier, so that option can only be matched by the
    capabilities. *)
Definition resolution_option_supported (o : SubscribeOptions.t)
  (s : PublicationSettings.t) (c : SubscriptionCapabilities.t) : Prop :=
  let res := VideoSubscriptionConstraints.resolution (SubscribeOptions.video o) in
  (width res = 0 /\ height res = 0)%N \/
  ((width res <> 0 /\ height res <> 0)%N /\
   ((exists vs, In vs (PublicationSettings.video s) /\
                VideoPublicationSettings.resolution vs = res) \/
    In res (VideoSubscriptionCapabilities.resolutions
              (SubscriptionCapabilities.video c)))).

Definition frame_rate_option_supported (o : SubscribeOptions.t)
  (s : PublicationSettings.t) (c : SubscriptionCapabilities.t) : Prop :=
  let fr := VideoSubscriptionConstraints.frameRate (SubscribeOptions.video o) in
  double_eqb fr double_zero = true \/
  (double_eqb fr double_zero = false /\
   ((exists vs, In vs (PublicationSettings.video s) /\
                double_eqb (VideoPublicationSettings.frame_rate vs) fr = true) \/
    (exists x, In x (VideoSubscriptionCapabilities.frame_rates
                       (SubscriptionCapabilities.video c)) /\
               double_eqb x fr = true))).

Definition keyframe_interval_option_supported (o : SubscribeOptions.t)
  (s : PublicationSettings.t) (c : SubscriptionCapabilities.t) : Prop :=
  let k := VideoSubscriptionConstraints.keyFrameInterval (SubscribeOptions.video o) in
  k = 0%N \/
  (k <> 0%N /\
   ((exists vs, In vs (PublicationSettings.video s) /\
                VideoPublicationSettings.keyframe_interval vs = k) \/
    In k (VideoSubscriptionCapabilities.keyframe_intervals
            (SubscriptionCapabilities.video c)))).

Definition bitrate_multiplier_option_supported (o : SubscribeOptions.t)
  (c : SubscriptionCapabilities.t) : Prop :=
  let bm := VideoSubscriptionConstraints.bitrateMultiplier (SubscribeOptions.video o) in
  double_eqb bm double_zero = true \/
  (double_eqb bm double_zero = false /\
   exists x, In x (VideoSubscriptionCapabilities.bitrate_multipliers
                     (SubscriptionCapabilities.video c)) /\
             double_eqb x bm = true).

(** ** sio::message

    A message is a string, an integer, an array or an object.  An object's
    members are kept in insertion order and looked up by key, as
    [get_map()[key]] does. *)
#[local] Set Warnings "-register-all".
Inductive sio_message :=
| string_message (s : string)
| int_message (i : Z)
| array_message (v : list sio_message)
| object_message (m : list (string * sio_message)).

Fixpoint map_find (key : string) (m : list (string * sio_message))
  : option sio_message :=
  match m with
  | [] => None
  | (k, v) :: rest => if String.eqb k key then Some v else map_find key rest
  end.

(** [m[key] = v] *)
Fixpoint map_set (key : string) (v : sio_message) (m : list (string * sio_message))
  : list (string * sio_message) :=
  match m with
  | [] => [(key, v)]
  | (k, x) :: rest =>
      if String.eqb k key then (k, v) :: rest else (k, x) :: map_set key v rest
  end.

(** Conversion of an [unsigned long] to the [int64_t] an int message holds. *)
Definition int64_of_unsigned_long (n : N) : Z :=
  (((Z.of_N n + 2 ^ 63) mod 2 ^ 64) - 2 ^ 63)%Z.

(** ** Streams *)

Module MediaStreamTrack.
Inductive TrackState := kLive | kEnded.
Record t := { id : string; state : TrackState }.
Definition is_live (track : t) : bool :=
  match state track with kLive => true | kEnded => false end.
End MediaStreamTrack.

Module MediaStreamInterface.
Record t := {
  id : string;
  GetAudioTracks : list MediaStreamTrack.t;
  GetVideoTracks : list MediaStreamTrack.t
}.
End MediaStreamInterface.

Module AudioSourceInfo.
Inductive t := kMic | kScreenCast | kFile | kMixed | kUnknown.
Definition eqb (a b : t) : bool :=
  match a, b with
  | kMic, kMic | kScreenCast, kScreenCast | kFile, kFile
  | kMixed, kMixed | kUnknown, kUnknown => true
  | _, _ => false
  end.
End AudioSourceInfo.

Module VideoSourceInfo.
Inductive t := kCamera | kScreenCast | kFile | kMixed | kUnknown.
Definition eqb (a b : t) : bool :=
  match a, b with
  | kCamera, kCamera | kScreenCast, kScreenCast | kFile, kFile
  | kMixed, kMixed | kUnknown, kUnknown => true
  | _, _ => false
  end.
End VideoSourceInfo.

Module StreamSourceInfo.
Record t := { audio : AudioSourceInfo.t; video : VideoSourceInfo.t }.
End StreamSourceInfo.

(** A [LocalStream]; [MediaStream] is the underlying media handle, which
    may be null. *)
Module LocalStream.
Record t := {
  MediaStream : option MediaStreamInterface.t;
  Source : StreamSourceInfo.t;
  Attributes : list (string * string)
}.
End LocalStream.

Module RemoteStream.
Record t := {
  Id : string;
  has_audio_ : bool;
  has_video_ : bool;
  Settings : PublicationSettings.t;
  Capabilities : SubscriptionCapabilities.t;
  Source : StreamSourceInfo.t;
  MediaStream : option MediaStreamInterface.t
}.

(** The setter [MediaStream(stream)]. *)
Definition set_MediaStream (m : MediaStreamInterface.t) (s : t) : t :=
  {| Id := Id s; has_audio_ := has_audio_ s; has_video_ := has_video_ s;
     Settings := Settings s; Capabilities := Capabilities s;
     Source := Source s; MediaStream := Some m |}.
End RemoteStream.

(** [std::shared_ptr<Stream>]: a published or a subscribed stream. *)
Inductive Stream :=
| OfLocalStream (s : LocalStream.t)
| OfRemoteStream (s : RemoteStream.t).

(** ** Collaborators *)

Module PeerConnectionInterface.
Inductive SignalingState :=
  | kStable | kHaveLocalOffer | kHaveLocalPrAnswer
  | kHaveRemoteOffer | kHaveRemotePrAnswer | kClosed.
Definition is_stable (s : SignalingState) : bool :=
  match s with kStable => true | _ => false end.
Inductive IceConnectionState :=
  | kIceConnectionNew | kIceConnectionChecking | kIceConnectionConnected
  | kIceConnectionCompleted | kIceConnectionFailed
  | kIceConnectionDisconnected | kIceConnectionClosed.
End PeerConnectionInterface.

Inductive RtpTransceiverDirection := kSendRecv | kSendOnly | kRecvOnly | kInactive.
Inductive MediaType := MEDIA_TYPE_AUDIO | MEDIA_TYPE_VIDEO.

(** A [webrtc::IceCandidateInterface]: what [ToString], [sdp_mline_index]
    and [sdp_mid] return. *)
Record IceCandidateInterface := {
  ToString : string;
  sdp_mline_index : Z;
  sdp_mid : string
}.

(** User callbacks and observers are opaque; they are told apart by
    identity, and a null [std::function] is [None]. *)
Definition SuccessCallback := nat.   (* std::function<void(std::string)> *)
Definition FailureCallback := nat.   (* std::function<void(std::unique_ptr<Exception>)> *)
Definition VoidCallback := nat.      (* std::function<void()> *)
Definition StatsCallback := nat.
Definition Observer := nat.          (* ConferencePeerConnectionChannelObserver& *)

(** The closure [RunInEventQueue] returns around a user callback. *)
Inductive QueuedCallback := InEventQueue (func : VoidCallback).

(** The acknowledgement closure handed to [SendInitializationMessage]:
    the one built by [SendPublishMessage] captures the stream, the one built
    by [Subscribe] captures only the channel. *)
Inductive InitializationAck :=
| PublishAck (stream : LocalStream.t)
| SubscribeAck.

(** Calls that leave the channel, in the order they are made.  The
    member [AddTransceiver] belongs to the base class, which is not part of
    the source file; a call to it is recorded with its media type and
    direction. *)
Inductive Effect :=
| SendSdp (message : sio_message)
| SendInitializationMessage (options : sio_message)
    (publish_stream_label subscribe_stream_label : string)
    (on_ack : InitializationAck) (on_failure : option FailureCallback)
| SendStreamEvent (event session_id : string)
    (on_success : option QueuedCallback) (on_failure : option FailureCallback)
| SendStreamControlMessage_ (session_id action operation : string)
    (on_success : option VoidCallback) (on_failure : option FailureCallback)
| SendSubscriptionControlMessage (session_id action operation : string)
    (on_success : option VoidCallback) (on_failure : option FailureCallback)
| PcCreateOffer (use_rtp_mux : bool)
| PcSetRemoteDescription (type sdp : string)
| PcGetStats (on_success : option StatsCallback)
| PcGetStatsReport (on_success : option StatsCallback)
| PcClose
| AddTransceiver (media_type : MediaType) (direction : RtpTransceiverDirection)
| InvokeSuccess (callback : SuccessCallback) (session_id : string)
| InvokeFailure (callback : FailureCallback) (what : string)
| InvokeVoid (callback : VoidCallback)
| ObserverOnStreamError (observer : Observer) (error_stream : option Stream)
    (what : string).

(** Closures posted to [event_queue_]. *)
Inductive Task :=
| TaskReportFailure (on_failure : FailureCallback) (what : string)
    (* [on_failure]() { on_failure(Exception(kConferenceUnknown, what)); } *)
| TaskPublishSuccess      (* [weak_this], lines 892-899 *)
| TaskSubscribeSuccess    (* [weak_this], lines 185-192 and 907-914 *)
| TaskServerFailure       (* [weak_this], lines 925-935 *)
| TaskRunFunc (func : VoidCallback).   (* [func] { func(); }, line 1085 *)

(** The handle the channel owns; [peer_connection_] is null once closed. *)
Inductive PeerConnection := the_peer_connection.

(** ** The channel object *)
Record Channel := {
  session_id_ : string;
  ice_restart_needed_ : bool;
  connected_ : bool;
  sub_stream_added_ : bool;
  sub_server_ready_ : bool;
  signaling_state_ : PeerConnectionInterface.SignalingState;
  ice_candidates_ : list sio_message;
  published_stream_ : option LocalStream.t;
  subscribed_stream_ : option RemoteStream.t;
  publish_success_callback_ : option SuccessCallback;
  subscribe_success_callback_ : option SuccessCallback;
  failure_callback_ : option FailureCallback;
  observers_ : list Observer;
  peer_connection_ : option PeerConnection;
  audio_transceiver_direction_ : RtpTransceiverDirection;
  video_transceiver_direction_ : RtpTransceiverDirection
}.

(** What the build and the libraries below the channel decide. *)
Record Platform := {
  rtc_dcheck_is_on : bool;
  field_trial_OWT_IceUnbundle : bool;  (* field_trial::IsEnabled("OWT-IceUnbundle") *)
  std_to_string : double -> string;    (* std::to_string(double) *)
  int64_of_double : double -> Z;       (* conversion of a double to int64_t *)
  CreateSessionDescription_ok : string -> string -> bool
    (* webrtc::CreateSessionDescription(type, sdp, nullptr) != nullptr *)
}.

(** The channel together with what surrounds it: [expired] holds once the
    object is destroyed, so that [weak_this.lock()] yields null. *)
Record World := {
  this : Channel;
  expired : bool;
  event_queue_ : list Task;
  trace : list Effect;
  platform : Platform
}.

(** Field updates. *)
Definition set_session_id_ (v : string) (c : Channel) : Channel :=
  {| session_id_ := v; ice_restart_needed_ := ice_restart_needed_ c;
     connected_ := connected_ c; sub_stream_added_ := sub_stream_added_ c;
     sub_server_ready_ := sub_server_ready_ c;
     signaling_state_ := signaling_state_ c; ice_candidates_ := ice_candidates_ c;
     published_stream_ := published_stream_ c;
     subscribed_stream_ := subscribed_stream_ c;
     publish_success_callback_ := publish_success_callback_ c;
     subscribe_success_callback_ := subscribe_success_callback_ c;
     failure_callback_ := failure_callback_ c; observers_ := observers_ c;
     peer_connection_ := peer_connection_ c;
     audio_transceiver_direction_ := audio_transceiver_direction_ c;
     video_transceiver_direction_ := video_transceiver_direction_ c |}.

Definition set_ice_restart_needed_ (v : bool) (c : Channel) : Channel :=
  {| session_id_ := session_id_ c; ice_restart_needed_ := v;
     connected_ := connected_ c; sub_stream_added_ := sub_stream_added_ c;
     sub_server_ready_ := sub_server_ready_ c;
     signaling_state_ := signaling_state_ c; ice_candidates_ := ice_candidates_ c;
     published_stream_ := published_stream_ c;
     subscribed_stream_ := subscribed_stream_ c;
     publish_success_callback_ := publish_success_callback_ c;
     subscribe_success_callback_ := subscribe_success_callback_ c;
     failure_callback_ := failure_callback_ c; observers_ := observers_ c;
     peer_connection_ := peer_connection_ c;
     audio_transceiver_direction_ := audio_transceiver_direction_ c;
     video_transceiver_direction_ := video_transceiver_direction_ c |}.

Definition set_connected_ (v : bool) (c : Channel) : Channel :=
  {| session_id_ := session_id_ c; ice_restart_needed_ := ice_restart_needed_ c;
     connected_ := v; sub_stream_added_ := sub_stream_added_ c;
     sub_server_ready_ := sub_server_ready_ c;
     signaling_state_ := signaling_state_ c; ice_candidates_ := ice_candidates_ c;
     published_stream_ := published_stream_ c;
     subscribed_stream_ := subscribed_stream_ c;
     publish_success_callback_ := publish_success_callback_ c;
     subscribe_success_callback_ := subscribe_success_callback_ c;
     failure_callback_ := failure_callback_ c; observers_ := observers_ c;
     peer_connection_ := peer_connection_ c;
     audio_transceiver_direction_ := audio_transceiver_direction_ c;
     video_transceiver_direction_ := video_transceiver_direction_ c |}.

Definition set_sub_stream_added_ (v : bool) (c : Channel) : Channel :=
  {| session_id_ := session_id_ c; ice_restart_needed_ := ice_restart_needed_ c;
     connected_ := connected_ c; sub_stream_added_ := v;
     sub_server_ready_ := sub_server_ready_ c;
     signaling_state_ := signaling_state_ c; ice_candidates_ := ice_candidates_ c;
     published_stream_ := published_stream_ c;
     subscribed_stream_ := subscribed_stream_ c;
     publish_success_callback_ := publish_success_callback_ c;
     subscribe_success_callback_ := subscribe_success_callback_ c;
     failure_callback_ := failure_callback_ c; observers_ := observers_ c;
     peer_connection_ := peer_connection_ c;
     audio_transceiver_direction_ := audio_transceiver_direction_ c;
     video_transceiver_direction_ := video_transceiver_direction_ c |}.

Definition set_sub_server_ready_ (v : bool) (c : Channel) : Channel :=
  {| session_id_ := session_id_ c; ice_restart_needed_ := ice_restart_needed_ c;
     connected_ := connected_ c; sub_stream_added_ := sub_stream_added_ c;
     sub_server_ready_ := v;
     signaling_state_ := signaling_state_ c; ice_candidates_ := ice_candidates_ c;
     published_stream_ := published_stream_ c;
     subscribed_stream_ := subscribed_stream_ c;
     publish_success_callback_ := publish_success_callback_ c;
     subscribe_success_callback_ := subscribe_success_callback_ c;
     failure_callback_ := failure_callback_ c; observers_ := observers_ c;
     peer_connection_ := peer_connection_ c;
     audio_transceiver_direction_ := audio_transceiver_direction_ c;
     video_transceiver_direction_ := video_transceiver_direction_ c |}.

Definition set_signaling_state_ (v : PeerConnectionInterface.SignalingState)
  (c : Channel) : Channel :=
  {| session_id_ := session_id_ c; ice_restart_needed_ := ice_restart_needed_ c;
     connected_ := connected_ c; sub_stream_added_ := sub_stream_added_ c;
     sub_server_ready_ := sub_server_ready_ c;
     signaling_state_ := v; ice_candidates_ := ice_candidates_ c;
     published_stream_ := published_stream_ c;
     subscribed_stream_ := subscribed_stream_ c;
     publish_success_callback_ := publish_success_callback_ c;
     subscribe_success_callback_ := subscribe_success_callback_ c;
     failure_callback_ := failure_callback_ c; observers_ := observers_ c;
     peer_connection_ := peer_connection_ c;
     audio_transceiver_direction_ := audio_transceiver_direction_ c;
     video_transceiver_direction_ := video_transceiver_direction_ c |}.

Definition set_ice_candidates_ (v : list sio_message) (c : Channel) : Channel :=
  {| session_id_ := session_id_ c; ice_restart_needed_ := ice_restart_needed_ c;
     connected_ := connected_ c; sub_stream_added_ := sub_stream_added_ c;
     sub_server_ready_ := sub_server_ready_ c;
     signaling_state_ := signaling_state_ c; ice_candidates_ := v;
     published_stream_ := published_stream_ c;
     subscribed_stream_ := subscribed_stream_ c;
     publish_success_callback_ := publish_success_callback_ c;
     subscribe_success_callback_ := subscribe_success_callback_ c;
     failure_callback_ := failure_callback_ c; observers_ := observers_ c;
     peer_connection_ := peer_connection_ c;
     audio_transceiver_direction_ := audio_transceiver_direction_ c;
     video_transceiver_direction_ := video_transceiver_direction_ c |}.

Definition set_published_stream_ (v : option LocalStream.t) (c : Channel) : Channel :=
  {| session_id_ := session_id_ c; ice_restart_needed_ := ice_restart_needed_ c;
     connected_ := connected_ c; sub_stream_added_ := sub_stream_added_ c;
     sub_server_ready_ := sub_server_ready_ c;
     signaling_state_ := signaling_state_ c; ice_candidates_ := ice_candidates_ c;
     published_stream_ := v;
     subscribed_stream_ := subscribed_stream_ c;
     publish_success_callback_ := publish_success_callback_ c;
     subscribe_success_callback_ := subscribe_success_callback_ c;
     failure_callback_ := failure_callback_ c; observers_ := observers_ c;
     peer_connection_ := peer_connection_ c;
     audio_transceiver_direction_ := audio_transceiver_direction_ c;
     video_transceiver_direction_ := video_transceiver_direction_ c |}.

Definition set_subscribed_stream_ (v : option RemoteStream.t) (c : Channel) : Channel :=
  {| session_id_ := session_id_ c; ice_restart_needed_ := ice_restart_needed_ c;
     connected_ := connected_ c; sub_stream_added_ := sub_stream_added_ c;
     sub_server_ready_ := sub_server_ready_ c;
     signaling_state_ := signaling_state_ c; ice_candidates_ := ice_candidates_ c;
     published_stream_ := published_stream_ c;
     subscribed_stream_ := v;
     publish_success_callback_ := publish_success_callback_ c;
     subscribe_success_callback_ := subscribe_success_callback_ c;
     failure_callback_ := failure_callback_ c; observers_ := observers_ c;
     peer_connection_ := peer_connection_ c;
     audio_transceiver_direction_ := audio_transceiver_direction_ c;
     video_transceiver_direction_ := video_transceiver_direction_ c |}.

Definition set_publish_success_callback_ (v : option SuccessCallback) (c : Channel)
  : Channel :=
  {| session_id_ := session_id_ c; ice_restart_needed_ := ice_restart_needed_ c;
     connected_ := connected_ c; sub_stream_added_ := sub_stream_added_ c;
     sub_server_ready_ := sub_server_ready_ c;
     signaling_state_ := signaling_state_ c; ice_candidates_ := ice_candidates_ c;
     published_stream_ := published_stream_ c;
     subscribed_stream_ := subscribed_stream_ c;
     publish_success_callback_ := v;
     subscribe_success_callback_ := subscribe_success_callback_ c;
     failure_callback_ := failure_callback_ c; observers_ := observers_ c;
     peer_connection_ := peer_connection_ c;
     audio_transceiver_direction_ := audio_transceiver_direction_ c;
     video_transceiver_direction_ := video_transceiver_direction_ c |}.

Definition set_subscribe_success_callback_ (v : option SuccessCallback) (c : Channel)
  : Channel :=
  {| session_id_ := session_id_ c; ice_restart_needed_ := ice_restart_needed_ c;
     connected_ := connected_ c; sub_stream_added_ := sub_stream_added_ c;
     sub_server_ready_ := sub_server_ready_ c;
     signaling_state_ := signaling_state_ c; ice_candidates_ := ice_candidates_ c;
     published_stream_ := published_stream_ c;
     subscribed_stream_ := subscribed_stream_ c;
     publish_success_callback_ := publish_success_callback_ c;
     subscribe_success_callback_ := v;
     failure_callback_ := failure_callback_ c; observers_ := observers_ c;
     peer_connection_ := peer_connection_ c;
     audio_transceiver_direction_ := audio_transceiver_direction_ c;
     video_transceiver_direction_ := video_transceiver_direction_ c |}.

Definition set_failure_callback_ (v : option FailureCallback) (c : Channel) : Channel :=
  {| session_id_ := session_id_ c; ice_restart_needed_ := ice_restart_needed_ c;
     connected_ := connected_ c; sub_stream_added_ := sub_stream_added_ c;
     sub_server_ready_ := sub_server_ready_ c;
     signaling_state_ := signaling_state_ c; ice_candidates_ := ice_candidates_ c;
     published_stream_ := published_stream_ c;
     subscribed_stream_ := subscribed_stream_ c;
     publish_success_callback_ := publish_success_callback_ c;
     subscribe_success_callback_ := subscribe_success_callback_ c;
     failure_callback_ := v; observers_ := observers_ c;
     peer_connection_ := peer_connection_ c;
     audio_transceiver_direction_ := audio_transceiver_direction_ c;
     video_transceiver_direction_ := video_transceiver_direction_ c |}.

Definition set_observers_ (v : list Observer) (c : Channel) : Channel :=
  {| session_id_ := session_id_ c; ice_restart_needed_ := ice_restart_needed_ c;
     connected_ := connected_ c; sub_stream_added_ := sub_stream_added_ c;
     sub_server_ready_ := sub_server_ready_ c;
     signaling_state_ := signaling_state_ c; ice_candidates_ := ice_candidates_ c;
     published_stream_ := published_stream_ c;
     subscribed_stream_ := subscribed_stream_ c;
     publish_success_callback_ := publish_success_callback_ c;
     subscribe_success_callback_ := subscribe_success_callback_ c;
     failure_callback_ := failure_callback_ c; observers_ := v;
     peer_connection_ := peer_connection_ c;
     audio_transceiver_direction_ := audio_transceiver_direction_ c;
     video_transceiver_direction_ := video_transceiver_direction_ c |}.

Definition set_peer_connection_ (v : option PeerConnection) (c : Channel) : Channel :=
  {| session_id_ := session_id_ c; ice_restart_needed_ := ice_restart_needed_ c;
     connected_ := connected_ c; sub_stream_added_ := sub_stream_added_ c;
     sub_server_ready_ := sub_server_ready_ c;
     signaling_state_ := signaling_state_ c; ice_candidates_ := ice_candidates_ c;
     published_stream_ := published_stream_ c;
     subscribed_stream_ := subscribed_stream_ c;
     publish_success_callback_ := publish_success_callback_ c;
     subscribe_success_callback_ := subscribe_success_callback_ c;
     failure_callback_ := failure_callback_ c; observers_ := observers_ c;
     peer_connection_ := v;
     audio_transceiver_direction_ := audio_transceiver_direction_ c;
     video_transceiver_direction_ := video_transceiver_direction_ c |}.

Definition set_transceiver_directions (a v : RtpTransceiverDirection) (c : Channel)
  : Channel :=
  {| session_id_ := session_id_ c; ice_restart_needed_ := ice_restart_needed_ c;
     connected_ := connected_ c; sub_stream_added_ := sub_stream_added_ c;
     sub_server_ready_ := sub_server_ready_ c;
     signaling_state_ := signaling_state_ c; ice_candidates_ := ice_candidates_ c;
     published_stream_ := published_stream_ c;
     subscribed_stream_ := subscribed_stream_ c;
     publish_success_callback_ := publish_success_callback_ c;
     subscribe_success_callback_ := subscribe_success_callback_ c;
     failure_callback_ := failure_callback_ c; observers_ := observers_ c;
     peer_connection_ := peer_connection_ c;
     audio_transceiver_direction_ := a;
     video_transceiver_direction_ := v |}.

Definition with_this (c : Channel) (w : World) : World :=
  {| this := c; expired := expired w; event_queue_ := event_queue_ w;
     trace := trace w; platform := platform w |}.
Definition with_expired (b : bool) (w : World) : World :=
  {| this := this w; expired := b; event_queue_ := event_queue_ w;
     trace := trace w; platform := platform w |}.
Definition with_event_queue_ (q : list Task) (w : World) : World :=
  {| this := this w; expired := expired w; event_queue_ := q;
     trace := trace w; platform := platform w |}.
Definition with_trace (t : list Effect) (w : World) : World :=
  {| this := this w; expired := expired w; event_queue_ := event_queue_ w;
     trace := t; platform := platform w |}.

(** ** The monad

    A member function either returns, or the process dies: on a null
    dereference, on a failed [RTC_CHECK], or on a failed [RTC_DCHECK] in a
    build that keeps them.  [Fatal] keeps the world reached at that
    point. *)
Inductive FatalError := NullDereference | CheckFailed | DcheckFailed.

Inductive Outcome (A : Type) :=
| Done (a : A) (w : World)
| Fatal (why : FatalError) (w : World).
Arguments Done {A} a w.
Arguments Fatal {A} why w.

Definition M (A : Type) : Type := World -> Outcome A.

Definition ret {A} (a : A) : M A := fun w => Done a w.
Definition bind {A B} (m : M A) (k : A -> M B) : M B :=
  fun w => match m w with
           | Done a w' => k a w'
           | Fatal why w' => Fatal why w'
           end.
Definition fatal {A} (why : FatalError) : M A := fun w => Fatal why w.

Declare Scope chan_scope.
Delimit Scope chan_scope with chan.
Notation "x <- m ;; k" := (bind m (fun x => k))
  (at level 61, m at next level, right associativity) : chan_scope.
Notation "m ;; k" := (bind m (fun _ => k))
  (at level 61, right associativity) : chan_scope.
Open Scope chan_scope.

(** The world an outcome ends in, and whether the call returned. *)
Definition final_world {A} (o : Outcome A) : World :=
  match o with Done _ w => w | Fatal _ w => w end.
Definition returned {A} (o : Outcome A) : bool :=
  match o with Done _ _ => true | Fatal _ _ => false end.

Definition get_this : M Channel := fun w => Done (this w) w.
Definition update (f : Channel -> Channel) : M unit :=
  fun w => Done tt (with_this (f (this w)) w).
Definition call (e : Effect) : M unit :=
  fun w => Done tt (with_trace (trace w ++ [e]) w).
(** [event_queue_->PostTask(task)] *)
Definition PostTask (task : Task) : M unit :=
  fun w => Done tt (with_event_queue_ (event_queue_ w ++ [task]) w).
Definition get_platform : M Platform := fun w => Done (platform w) w.

Definition is_some {A} (p : option A) : bool :=
  match p with Some _ => true | None => false end.

(** [p->...] *)
Definition deref {A} (p : option A) : M A :=
  match p with Some a => ret a | None => fatal NullDereference end.
Definition RTC_CHECK (condition : bool) : M unit :=
  if condition then ret tt else fatal CheckFailed.
Definition RTC_DCHECK (condition : bool) : M unit :=
  p <- get_platform ;;
  if condition || negb (rtc_dcheck_is_on p) then ret tt else fatal DcheckFailed.

Fixpoint for_each {A} (body : A -> M unit) (l : list A) : M unit :=
  match l with
  | [] => ret tt
  | x :: rest => body x ;; for_each body rest
  end.

(** [if (on_failure != nullptr) event_queue_->PostTask([on_failure]() {...})] *)
Definition post_failure (on_failure : option FailureCallback) (what : string)
  : M unit :=
  match on_failure with
  | Some f => PostTask (TaskReportFailure f what)
  | None => ret tt
  end.

(** ** Member functions *)

Definition ResetCallbacks : M unit :=
  update (set_publish_success_callback_ None) ;;
  update (set_subscribe_success_callback_ None) ;;
  update (set_failure_callback_ None).

Definition SetSessionId (id : string) : M unit := update (set_session_id_ id).
Definition GetSessionId : M string := c <- get_this ;; ret (session_id_ c).

(** Modelled from the spec: the accessor [SignalingState()] belongs to the
    base class [PeerConnectionChannel], which is not part of the source
    file.  The specification has one signaling state per channel, updated
    by the signaling-state notification, so the accessor reads
    [signaling_state_]. *)
Definition SignalingState : M PeerConnectionInterface.SignalingState :=
  c <- get_this ;; ret (signaling_state_ c).

Definition AddObserver (observer : Observer) : M unit :=
  c <- get_this ;;
  if existsb (Nat.eqb observer) (observers_ c) then ret tt
  else update (set_observers_ (observers_ c ++ [observer])).

(** Lines 106-121.  The observer bound to this call routes the description
    back to the channel; only the request is recorded here. *)
Definition CreateOffer : M unit :=
  p <- get_platform ;;
  let rtp_no_mux := field_trial_OWT_IceUnbundle p in
  c <- get_this ;;
  _ <- deref (peer_connection_ c) ;;
  call (PcCreateOffer (negb rtp_no_mux)).

Definition DoIceRestart : M unit :=
  s <- SignalingState ;;
  RTC_DCHECK (PeerConnectionInterface.is_stable s) ;;
  CreateOffer.

Definition IceRestart : M unit :=
  s <- SignalingState ;;
  if PeerConnectionInterface.is_stable s then DoIceRestart
  else update (set_ice_restart_needed_ true).

(** Lines 965-971. *)
Definition DrainIceCandidates : M unit :=
  c <- get_this ;;
  for_each (fun it => call (SendSdp it)) (ice_candidates_ c) ;;
  update (set_ice_candidates_ []).

(** Lines 154-170. *)
Definition OnSignalingChange (new_state : PeerConnectionInterface.SignalingState)
  : M unit :=
  update (set_signaling_state_ new_state) ;;
  if PeerConnectionInterface.is_stable new_state then
    c <- get_this ;;
    if ice_restart_needed_ c then
      update (set_ice_restart_needed_ false) ;;
      update (set_ice_candidates_ []) ;;
      DoIceRestart
    else
      DrainIceCandidates
  else ret tt.

(** Lines 172-198. *)
Definition OnAddStream (stream : MediaStreamInterface.t) : M unit :=
  c <- get_this ;;
  match subscribed_stream_ c with
  | Some s => update (set_subscribed_stream_
                        (Some (RemoteStream.set_MediaStream stream s)))
  | None => ret tt
  end ;;
  c <- get_this ;;
  if is_some (subscribe_success_callback_ c) then
    let server_ready := sub_server_ready_ c in
    update (set_sub_stream_added_ true) ;;
    if server_ready then
      PostTask TaskSubscribeSuccess ;;
      update (set_sub_server_ready_ false) ;;
      update (set_sub_stream_added_ false)
    else ret tt
  else ret tt.

(** Lines 231-256: the candidate message built before the state test. *)
Definition candidate_message (session_id : string)
  (candidate : IceCandidateInterface) : sio_message :=
  let candidate_string := "a=" ++ ToString candidate in
  object_message
    [("id", string_message session_id);
     ("signaling",
      object_message
        [("type", string_message "candidate");
         ("candidate",
          object_message
            [("sdpMLineIndex", int_message (sdp_mline_index candidate));
             ("sdpMid", string_message (sdp_mid candidate));
             ("candidate", string_message candidate_string)])])].

Definition OnIceCandidate (candidate : IceCandidateInterface) : M unit :=
  c <- get_this ;;
  let message := candidate_message (session_id_ c) candidate in
  if PeerConnectionInterface.is_stable (signaling_state_ c) then
    call (SendSdp message)
  else
    update (set_ice_candidates_ (ice_candidates_ c ++ [message])).

(** Lines 383-396.  [pointer] is the pointee when the pointer is non-null. *)
Definition CheckNullPointer {A} (pointer : option A)
  (on_failure : option FailureCallback) : M bool :=
  if is_some pointer then ret true
  else
    post_failure on_failure "Nullptr is not allowed." ;;
    ret false.

(** Lines 1101-1115. *)
Definition IsMediaStreamEnded (stream : option MediaStreamInterface.t) : M bool :=
  RTC_CHECK (is_some stream) ;;
  s <- deref stream ;;
  if existsb MediaStreamTrack.is_live (MediaStreamInterface.GetAudioTracks s)
  then ret false
  else if existsb MediaStreamTrack.is_live (MediaStreamInterface.GetVideoTracks s)
  then ret false
  else ret true.

(** Lines 1093-1100. *)
Definition ClosePeerConnection : M unit :=
  c <- get_this ;;
  match peer_connection_ c with
  | Some _ => call PcClose ;; update (set_peer_connection_ None)
  | None => ret tt
  end.

(** Lines 1076-1087.  The closure returned checks [weak_this] when it is
    called; see [run_queued_callback]. *)
Definition RunInEventQueue (func : option VoidCallback) : M (option QueuedCallback) :=
  match func with
  | None => ret None
  | Some f => ret (Some (InEventQueue f))
  end.

(** Lines 717-737. *)
Definition Unpublish (session_id : string) (on_success : option VoidCallback)
  (on_failure : option FailureCallback) : M unit :=
  current <- GetSessionId ;;
  if negb (String.eqb session_id current) then
    post_failure on_failure "Invalid stream to be unpublished."
  else
    update (set_connected_ false) ;;
    queued <- RunInEventQueue on_success ;;
    call (SendStreamEvent "unpublish" session_id queued on_failure) ;;
    ClosePeerConnection.

(** Lines 738-769. *)
Definition Unsubscribe (session_id : string) (on_success : option VoidCallback)
  (on_failure : option FailureCallback) : M unit :=
  current <- GetSessionId ;;
  if negb (String.eqb session_id current) then
    post_failure on_failure "Invalid stream to be unsubscribed."
  else
    c <- get_this ;;
    if is_some (subscribe_success_callback_ c) then
      post_failure on_failure "Cannot unsubscribe a stream during subscribing."
    else
      update (set_connected_ false) ;;
      queued <- RunInEventQueue on_success ;;
      call (SendStreamEvent "unsubscribe" session_id queued on_failure) ;;
      ClosePeerConnection.

(** Lines 1054-1075.  [error_stream] is a local that starts out null and is
    assigned only after the observers have been called. *)
Definition OnStreamError (error_message : string) : M unit :=
  let error_stream : option Stream := None in
  c <- get_this ;;
  for_each (fun its => call (ObserverOnStreamError its error_stream error_message))
           (observers_ c) ;;
  c <- get_this ;;
  error_stream <-
    match published_stream_ c with
    | Some _ =>
        id <- GetSessionId ;;
        Unpublish id None None ;;
        c <- get_this ;;
        ret (option_map OfLocalStream (published_stream_ c))
    | None => ret error_stream
    end ;;
  c <- get_this ;;
  error_stream <-
    match subscribed_stream_ c with
    | Some _ =>
        id <- GetSessionId ;;
        Unsubscribe id None None ;;
        c <- get_this ;;
        ret (option_map OfRemoteStream (subscribed_stream_ c))
    | None => ret error_stream
    end ;;
  if is_some error_stream then ret tt
  else RTC_DCHECK false.

(** Lines 770-787. *)
Definition SendStreamControlMessage (in_action out_action operation : string)
  (on_success : option VoidCallback) (on_failure : option FailureCallback)
  : M unit :=
  c <- get_this ;;
  if is_some (published_stream_ c) then
    let action := out_action in
    call (SendStreamControlMessage_ (session_id_ c) action operation
            on_success on_failure)
  else if is_some (subscribed_stream_ c) then
    let action := in_action in
    call (SendSubscriptionControlMessage (session_id_ c) action operation
            on_success on_failure)
  else RTC_DCHECK false.

Definition PlayAudioVideo on_success on_failure : M unit :=
  SendStreamControlMessage "av" "av" "play" on_success on_failure.
Definition PauseAudioVideo on_success on_failure : M unit :=
  SendStreamControlMessage "av" "av" "pause" on_success on_failure.
Definition PlayAudio on_success on_failure : M unit :=
  SendStreamControlMessage "audio" "audio" "play" on_success on_failure.
Definition PauseAudio on_success on_failure : M unit :=
  SendStreamControlMessage "audio" "audio" "pause" on_success on_failure.
Definition PlayVideo on_success on_failure : M unit :=
  SendStreamControlMessage "video" "video" "play" on_success on_failure.
Definition PauseVideo on_success on_failure : M unit :=
  SendStreamControlMessage "video" "video" "pause" on_success on_failure.

(** Lines 823-844 and, with the standard report, 846-866. *)
Definition GetConnectionStats (on_success : option StatsCallback)
  (on_failure : option FailureCallback) : M unit :=
  c <- get_this ;;
  if negb (is_some (published_stream_ c)) && negb (is_some (subscribed_stream_ c))
  then post_failure on_failure "No stream associated with the session"
  else if is_some (subscribed_stream_ c) || is_some (published_stream_ c) then
    _ <- deref (peer_connection_ c) ;;
    call (PcGetStats on_success)
  else ret tt.

Definition GetConnectionStats_report (on_success : option StatsCallback)
  (on_failure : option FailureCallback) : M unit :=
  c <- get_this ;;
  if negb (is_some (published_stream_ c)) && negb (is_some (subscribed_stream_ c))
  then post_failure on_failure "No stream associated with the session"
  else if is_some (subscribed_stream_ c) || is_some (published_stream_ c) then
    _ <- deref (peer_connection_ c) ;;
    call (PcGetStatsReport on_success)
  else ret tt.

(** Lines 438-487: the options payload of a publish request.  The counts are
    those of the stream's audio and video tracks. *)
Definition publish_options (stream : LocalStream.t)
  (audio_track_count video_track_count : nat) : sio_message :=
  let attributes_ptr :=
    fold_left (fun m attr => map_set (fst attr) (string_message (snd attr)) m)
              (LocalStream.Attributes stream) [] in
  let audio_options :=
    object_message
      [("type", string_message "audio");
       ("mid", string_message "0");
       ("source",
        string_message
          (if AudioSourceInfo.eqb
                (StreamSourceInfo.audio (LocalStream.Source stream))
                AudioSourceInfo.kScreenCast
           then "screen-cast" else "mic"))] in
  let video_options :=
    object_message
      [("type", string_message "video");
       ("mid", string_message (if Nat.eqb audio_track_count 0 then "0" else "1"));
       ("source",
        string_message
          (if VideoSourceInfo.eqb
                (StreamSourceInfo.video (LocalStream.Source stream))
                VideoSourceInfo.kScreenCast
           then "screen-cast" else "camera"))] in
  let tracks_ptr :=
    ((if negb (Nat.eqb audio_track_count 0) then [audio_options] else []) ++
     (if negb (Nat.eqb video_track_count 0) then [video_options] else []))%list in
  object_message
    [("attributes", object_message attributes_ptr);
     ("media", object_message [("tracks", array_message tracks_ptr)]);
     ("transport", object_message [("type", string_message "webrtc")])].

(** Lines 986-1050.  The acknowledgement closure (session id, transceivers,
    offer) runs when the server answers and is carried as [PublishAck]. *)
Definition SendPublishMessage (options : sio_message) (stream : LocalStream.t)
  (on_failure : option FailureCallback) : M unit :=
  ms <- deref (LocalStream.MediaStream stream) ;;
  call (SendInitializationMessage options (MediaStreamInterface.id ms) ""
          (PublishAck stream) on_failure).

(** Lines 400-489.  [stream] is the shared pointer passed in; the condition
    of the first [if] is an [||] of two negated checks, so the second check
    is evaluated only when the first one passes. *)
Definition Publish (stream : option LocalStream.t)
  (on_success : option SuccessCallback) (on_failure : option FailureCallback)
  : M unit :=
  update (set_published_stream_ stream) ;;
  first_ok <- CheckNullPointer stream on_failure ;;
  _ <- (if negb first_ok then ret true
        else
          s <- deref stream ;;
          second_ok <- CheckNullPointer (LocalStream.MediaStream s) on_failure ;;
          ret (negb second_ok)) ;;
  (* the body of the [if] only logs *)
  s <- deref stream ;;
  ended <- IsMediaStreamEnded (LocalStream.MediaStream s) ;;
  if ended then
    post_failure on_failure "Cannot publish ended stream."
  else
    ms <- deref (LocalStream.MediaStream s) ;;
    let audio_track_count := List.length (MediaStreamInterface.GetAudioTracks ms) in
    let video_track_count := List.length (MediaStreamInterface.GetVideoTracks ms) in
    if Nat.eqb audio_track_count 0 && Nat.eqb video_track_count 0 then
      post_failure on_failure "Cannot publish media stream without any tracks."
    else
      update (set_publish_success_callback_ on_success) ;;
      update (set_failure_callback_ on_failure) ;;
      update (set_transceiver_directions kSendOnly kSendOnly) ;;
      SendPublishMessage
        (publish_options s audio_track_count video_track_count) s on_failure.

(** Lines 630-705: the options payload of a subscribe request. *)
Definition subscribe_options_message (p : Platform) (stream : RemoteStream.t)
  (subscribe_options : SubscribeOptions.t)
  (audio_track_count video_track_count : nat) : sio_message :=
  let v := SubscribeOptions.video subscribe_options in
  let res := VideoSubscriptionConstraints.resolution v in
  let rid := VideoSubscriptionConstraints.rid v in
  let audio_options :=
    object_message
      [("type", string_message "audio");
       ("mid", string_message "0");
       ("from", string_message (RemoteStream.Id stream))] in
  let from :=
    if negb (String.eqb rid "") then
      match find (fun video_setting =>
                    String.eqb (VideoPublicationSettings.rid video_setting) rid)
                 (PublicationSettings.video (RemoteStream.Settings stream)) with
      | Some video_setting =>
          [("from", string_message (VideoPublicationSettings.track_id video_setting))]
      | None => []
      end
    else [("from", string_message (RemoteStream.Id stream))] in
  let quality_level :=
    if double_ne_zero (VideoSubscriptionConstraints.bitrateMultiplier v)
    then "x" ++ substring 0 3
                  (std_to_string p (VideoSubscriptionConstraints.bitrateMultiplier v))
    else "x1.0" in
  let video_spec :=
   ((if negb (width res =? 0)%N && negb (height res =? 0)%N
     then [("resolution",
            object_message
              [("width", int_message (int64_of_unsigned_long (width res)));
               ("height", int_message (int64_of_unsigned_long (height res)))])]
     else []) ++
    (if negb (String.eqb quality_level "x1.0")
     then [("bitrate", string_message quality_level)] else []) ++
    (if negb (VideoSubscriptionConstraints.keyFrameInterval v =? 0)%N
     then [("keyFrameInterval",
            int_message (int64_of_unsigned_long
                           (VideoSubscriptionConstraints.keyFrameInterval v)))]
     else []) ++
    (if double_ne_zero (VideoSubscriptionConstraints.frameRate v)
     then [("framerate",
            int_message (int64_of_double p (VideoSubscriptionConstraints.frameRate v)))]
     else []))%list in
  let video_options :=
    object_message
      ([("type", string_message "video");
        ("mid", string_message (if Nat.eqb audio_track_count 0 then "0" else "1"))]
       ++ from
       ++ [("parameters", object_message video_spec)]
       ++ (if negb (String.eqb rid "")
           then [("simulcastRid", string_message rid)] else []))%list in
  let tracks_options :=
    ((if Nat.ltb 0 audio_track_count then [audio_options] else []) ++
     (if Nat.ltb 0 video_track_count then [video_options] else []))%list in
  object_message
    [("media", object_message [("tracks", array_message tracks_options)]);
     ("transport", object_message [("type", string_message "webrtc")])].

(** Lines 581-716.  The first use of [stream] reads through the pointer
    ([stream->Settings()]) before any null check. *)
Definition Subscribe (stream : option RemoteStream.t)
  (subscribe_options : SubscribeOptions.t)
  (on_success : option SuccessCallback) (on_failure : option FailureCallback)
  : M unit :=
  s <- deref stream ;;
  if negb (SubOptionAllowed subscribe_options (RemoteStream.Settings s)
             (RemoteStream.Capabilities s)) then
    post_failure on_failure "Unsupported subscribe option."
  else
    ok <- CheckNullPointer stream on_failure ;;
    if negb ok then ret tt
    else
      c <- get_this ;;
      (if is_some (subscribe_success_callback_ c)
       then post_failure on_failure "Subscribing this stream."
       else ret tt) ;;
      update (set_subscribe_success_callback_ on_success) ;;
      update (set_failure_callback_ on_failure) ;;
      let audio_wanted :=
        RemoteStream.has_audio_ s &&
        negb (AudioSubscriptionConstraints.disabled
                (SubscribeOptions.audio subscribe_options)) in
      let video_wanted :=
        RemoteStream.has_video_ s &&
        negb (VideoSubscriptionConstraints.disabled
                (SubscribeOptions.video subscribe_options)) in
      (if audio_wanted then call (AddTransceiver MEDIA_TYPE_AUDIO kRecvOnly)
       else ret tt) ;;
      let audio_track_count := if audio_wanted then 1 else 0 in
      (if video_wanted then call (AddTransceiver MEDIA_TYPE_VIDEO kRecvOnly)
       else ret tt) ;;
      let video_track_count := if video_wanted then 1 else 0 in
      p <- get_platform ;;
      call (SendInitializationMessage
              (subscribe_options_message p s subscribe_options
                 audio_track_count video_track_count)
              "" (RemoteStream.Id s) SubscribeAck on_failure) ;;
      update (set_subscribed_stream_ stream).

(** The acknowledgement closure of [Subscribe] (lines 709-713). *)
Definition on_subscribe_ack (session_id transport_id : string) : M unit :=
  SetSessionId session_id ;;
  CreateOffer.

(** Lines 365-381. *)
Definition SetRemoteDescription (type sdp : string) : M unit :=
  p <- get_platform ;;
  if negb (CreateSessionDescription_ok p "answer" sdp) then ret tt
  else
    c <- get_this ;;
    _ <- deref (peer_connection_ c) ;;
    call (PcSetRemoteDescription "answer" sdp).

(** Lines 881-964.  [message] is null or points to a message. *)
Definition OnSignalingMessage (message : option sio_message) : M unit :=
  match message with
  | None => ret tt
  | Some (string_message s) =>
      if String.eqb s "success" then
        c <- get_this ;;
        if is_some (publish_success_callback_ c) then
          PostTask TaskPublishSuccess
        else if is_some (subscribe_success_callback_ c) then
          let stream_added := sub_stream_added_ c in
          update (set_sub_server_ready_ true) ;;
          if stream_added then
            PostTask TaskSubscribeSuccess ;;
            update (set_sub_server_ready_ false) ;;
            update (set_sub_stream_added_ false)
          else ret tt
        else ret tt
      else if String.eqb s "failure" then
        c <- get_this ;;
        if negb (connected_ c) && is_some (failure_callback_ c) then
          PostTask TaskServerFailure
        else ret tt
      else ret tt
  | Some (object_message m) =>
      match map_find "type" m with
      | None => ret tt
      | Some (string_message type) =>
          match map_find "sdp" m with
          | Some (string_message sdp) =>
              if String.eqb type "answer" then SetRemoteDescription type sdp
              else ret tt
          | _ => ret tt
          end
      | Some _ => ret tt
      end
  | Some _ => ret tt
  end.

(** ** The task queue *)

(** [auto that = weak_this.lock();] -- [true] when [that] is non-null. *)
Definition weak_this_lock : M bool := fun w => Done (negb (expired w)) w.
(** [that->member] *)
Definition deref_that (that : bool) : M unit :=
  if that then ret tt else fatal NullDereference.

(** The three closures over [weak_this] (lines 185-192, 892-899, 907-914,
    925-935) take [that->callback_mutex_] first and test [!that] after it. *)
Definition publish_success_task : M unit :=
  that <- weak_this_lock ;;
  deref_that that ;;   (* std::lock_guard<std::mutex> lock(that->callback_mutex_) *)
  c <- get_this ;;
  if negb that || negb (is_some (publish_success_callback_ c)) then ret tt
  else
    callback <- deref (publish_success_callback_ c) ;;
    id <- GetSessionId ;;
    call (InvokeSuccess callback id) ;;
    ResetCallbacks.

Definition subscribe_success_task : M unit :=
  that <- weak_this_lock ;;
  deref_that that ;;   (* std::lock_guard<std::mutex> lock(that->callback_mutex_) *)
  c <- get_this ;;
  if negb that || negb (is_some (subscribe_success_callback_ c)) then ret tt
  else
    callback <- deref (subscribe_success_callback_ c) ;;
    id <- GetSessionId ;;
    call (InvokeSuccess callback id) ;;
    ResetCallbacks.

Definition server_failure_task : M unit :=
  that <- weak_this_lock ;;
  deref_that that ;;   (* std::lock_guard<std::mutex> lock(that->callback_mutex_) *)
  c <- get_this ;;
  if negb that || negb (is_some (failure_callback_ c)) then ret tt
  else
    callback <- deref (failure_callback_ c) ;;
    call (InvokeFailure callback
            "Server internal error during connection establishment.") ;;
    ResetCallbacks.

Definition run_task (task : Task) : M unit :=
  match task with
  | TaskReportFailure on_failure what => call (InvokeFailure on_failure what)
  | TaskPublishSuccess => publish_success_task
  | TaskSubscribeSuccess => subscribe_success_task
  | TaskServerFailure => server_failure_task
  | TaskRunFunc func => call (InvokeVoid func)
  end.

Fixpoint run_tasks (tasks : list Task) : M unit :=
  match tasks with
  | [] => ret tt
  | task :: rest => run_task task ;; run_tasks rest
  end.

(** The queue runs the tasks posted so far in submission order. *)
Definition run_event_queue : M unit :=
  fun w => run_tasks (event_queue_ w) (with_event_queue_ [] w).

(** The closure [RunInEventQueue] built, called by the signaling channel
    (lines 1081-1086): it tests [that] before using it. *)
Definition run_queued_callback (q : QueuedCallback) : M unit :=
  match q with
  | InEventQueue func =>
      that <- weak_this_lock ;;
      if negb that then ret tt
      else PostTask (TaskRunFunc func)
  end.

(** The destructor (lines 76-82); afterwards [weak_this] is expired. *)
Definition destroy : M unit :=
  c <- get_this ;;
  (if is_some (published_stream_ c)
   then id <- GetSessionId ;; Unpublish id None None else ret tt) ;;
  c <- get_this ;;
  (if is_some (subscribed_stream_ c)
   then id <- GetSessionId ;; Unsubscribe id None None else ret tt) ;;
  (fun w => Done tt (with_expired true w)).

(** ** Transport notifications as a run

    The transport delivers candidate and signaling-state notifications one
    after the other; [deliver_all] feeds a list of them to the channel. *)
Inductive TransportEvent :=
| CandidateGenerated (candidate : IceCandidateInterface)
| SignalingChanged (new_state : PeerConnectionInterface.SignalingState).

Definition deliver (e : TransportEvent) : M unit :=
  match e with
  | CandidateGenerated candidate => OnIceCandidate candidate
  | SignalingChanged new_state => OnSignalingChange new_state
  end.

Definition deliver_all (events : list TransportEvent) : M unit :=
  for_each deliver events.

(** The candidates of a run, in generation order. *)
Fixpoint generated (events : list TransportEvent) : list IceCandidateInterface :=
  match events with
  | [] => []
  | CandidateGenerated candidate :: rest => candidate :: generated rest
  | SignalingChanged _ :: rest => generated rest
  end.

(** The messages handed to [SendSdp], in the order of the calls. *)
Fixpoint transmitted (t : list Effect) : list sio_message :=
  match t with
  | [] => []
  | SendSdp message :: rest => message :: transmitted rest
  | _ :: rest => transmitted rest
  end.

(** The queue invariant of the candidate buffer: no restart is pending and
    nothing is queued while the signaling state is stable. *)
Definition buffer_invariant (w : World) : Prop :=
  ice_restart_needed_ (this w) = false /\
  (PeerConnectionInterface.is_stable (signaling_state_ (this w)) = true ->
   ice_candidates_ (this w) = []).

(** ** Sample subscribe requests *)
Definition default_video_constraints : VideoSubscriptionConstraints.t :=
  {| VideoSubscriptionConstraints.disabled := false;
     VideoSubscriptionConstraints.resolution := {| width := 0; height := 0 |};
     VideoSubscriptionConstraints.frameRate := double_zero;
     VideoSubscriptionConstraints.bitrateMultiplier := double_zero;
     VideoSubscriptionConstraints.keyFrameInterval := 0;
     VideoSubscriptionConstraints.rid := "" |}.

Definition default_options : SubscribeOptions.t :=
  {| SubscribeOptions.audio := {| AudioSubscriptionConstraints.disabled := false |};
     SubscribeOptions.video := default_video_constraints |}.

(** The doubles 30.0 = 8444249301319680 * 2^-48 and 2.0 = 2^52 * 2^-51,
    with their 53-bit mantissas. *)
Definition double_30 : double := S754_finite false 8444249301319680 (-48).
Definition double_2 : double := S754_finite false 4503599627370496 (-51).

Definition options_with_rid (r : string) : SubscribeOptions.t :=
  {| SubscribeOptions.audio := {| AudioSubscriptionConstraints.disabled := false |};
     SubscribeOptions.video :=
       {| VideoSubscriptionConstraints.disabled := false;
          VideoSubscriptionConstraints.resolution := {| width := 1920; height := 1080 |};
          VideoSubscriptionConstraints.frameRate := double_30;
          VideoSubscriptionConstraints.bitrateMultiplier := double_2;
          VideoSubscriptionConstraints.keyFrameInterval := 100;
          VideoSubscriptionConstraints.rid := r |} |}.

Definition layer (r : string) (w h : N) : VideoPublicationSettings.t :=
  {| VideoPublicationSettings.resolution := {| width := w; height := h |};
     VideoPublicationSettings.frame_rate := double_30;
     VideoPublicationSettings.bitrate := 0;
     VideoPublicationSettings.keyframe_interval := 100;
     VideoPublicationSettings.rid := r;
     VideoPublicationSettings.track_id := "track-" ++ r |}.

Definition simulcast_settings : PublicationSettings.t :=
  {| PublicationSettings.video := [layer "0" 320 180; layer "1" 640 360] |}.

Definition no_capabilities : SubscriptionCapabilities.t :=
  {| SubscriptionCapabilities.video :=
       {| VideoSubscriptionCapabilities.resolutions := [];
          VideoSubscriptionCapabilities.frame_rates := [];
          VideoSubscriptionCapabilities.bitrate_multipliers := [];
          VideoSubscriptionCapabilities.keyframe_intervals := [] |} |}.

(** A request for a given resolution and frame rate, no rid. *)
Definition options_with (w h : N) (frame_rate : double) : SubscribeOptions.t :=
  {| SubscribeOptions.audio := {| AudioSubscriptionConstraints.disabled := false |};
     SubscribeOptions.video :=
       {| VideoSubscriptionConstraints.disabled := false;
          VideoSubscriptionConstraints.resolution := {| width := w; height := h |};
          VideoSubscriptionConstraints.frameRate := frame_rate;
          VideoSubscriptionConstraints.bitrateMultiplier := double_zero;
          VideoSubscriptionConstraints.keyFrameInterval := 0;
          VideoSubscriptionConstraints.rid := "" |} |}.

Definition capabilities_720p : SubscriptionCapabilities.t :=
  {| SubscriptionCapabilities.video :=
       {| VideoSubscriptionCapabilities.resolutions := [{| width := 1280; height := 720 |}];
          VideoSubscriptionCapabilities.frame_rates := [];
          VideoSubscriptionCapabilities.bitrate_multipliers := [];
          VideoSubscriptionCapabilities.keyframe_intervals := [] |} |}.

(** ** Sample worlds *)

(** A platform for the examples; none of them reaches the two conversions,
    which are left as constants. *)
Definition sample_platform : Platform :=
  {| rtc_dcheck_is_on := true;
     field_trial_OWT_IceUnbundle := false;
     std_to_string := fun _ => "";
     int64_of_double := fun _ => 0%Z;
     CreateSessionDescription_ok := fun _ _ => true |}.

(** The channel as the constructor leaves it (lines 61-75), with an open
    peer connection and the stable signaling state a new connection is in. *)
Definition idle_channel : Channel :=
  {| session_id_ := "";
     ice_restart_needed_ := false;
     connected_ := false;
     sub_stream_added_ := false;
     sub_server_ready_ := false;
     signaling_state_ := PeerConnectionInterface.kStable;
     ice_candidates_ := [];
     published_stream_ := None;
     subscribed_stream_ := None;
     publish_success_callback_ := None;
     subscribe_success_callback_ := None;
     failure_callback_ := None;
     observers_ := [];
     peer_connection_ := Some the_peer_connection;
     audio_transceiver_direction_ := kSendRecv;
     video_transceiver_direction_ := kSendRecv |}.

Definition idle_world (p : Platform) : World :=
  {| this := idle_channel; expired := false; event_queue_ := [];
     trace := []; platform := p |}.

Definition candidate_A : IceCandidateInterface :=
  {| ToString := "candidate:A"; sdp_mline_index := 0; sdp_mid := "0" |}.
Definition candidate_B : IceCandidateInterface :=
  {| ToString := "candidate:B"; sdp_mline_index := 1; sdp_mid := "1" |}.
Definition candidate_C : IceCandidateInterface :=
  {| ToString := "candidate:C"; sdp_mline_index := 0; sdp_mid := "0" |}.
Definition candidate_D : IceCandidateInterface :=
  {| ToString := "candidate:D"; sdp_mline_index := 1; sdp_mid := "1" |}.

(** A channel that left the stable state, queued A and B, and was asked for
    an ICE restart. *)
Definition restart_pending_world : World :=
  final_world
    ((OnSignalingChange PeerConnectionInterface.kHaveLocalOffer ;;
      OnIceCandidate candidate_A ;;
      OnIceCandidate candidate_B ;;
      IceRestart) (idle_world sample_platform)).

(** The same without the restart request. *)
Definition queued_world : World :=
  final_world
    ((OnSignalingChange PeerConnectionInterface.kHaveLocalOffer ;;
      OnIceCandidate candidate_A ;;
      OnIceCandidate candidate_B) (idle_world sample_platform)).

Definition sample_run : list TransportEvent :=
  [CandidateGenerated candidate_A;
   SignalingChanged PeerConnectionInterface.kHaveLocalOffer;
   CandidateGenerated candidate_B;
   CandidateGenerated candidate_C;
   SignalingChanged PeerConnectionInterface.kStable;
   CandidateGenerated candidate_D].

Definition sample_media : MediaStreamInterface.t :=
  {| MediaStreamInterface.id := "media-1";
     MediaStreamInterface.GetAudioTracks :=
       [{| MediaStreamTrack.id := "a0"; MediaStreamTrack.state := MediaStreamTrack.kLive |}];
     MediaStreamInterface.GetVideoTracks :=
       [{| MediaStreamTrack.id := "v0"; MediaStreamTrack.state := MediaStreamTrack.kLive |}] |}.

Definition camera_source : StreamSourceInfo.t :=
  {| StreamSourceInfo.audio := AudioSourceInfo.kMic;
     StreamSourceInfo.video := VideoSourceInfo.kCamera |}.

Definition remote_stream : RemoteStream.t :=
  {| RemoteStream.Id := "remote-1";
     RemoteStream.has_audio_ := true;
     RemoteStream.has_video_ := true;
     RemoteStream.Settings := simulcast_settings;
     RemoteStream.Capabilities := no_capabilities;
     RemoteStream.Source := camera_source;
     RemoteStream.MediaStream := None |}.

(** A channel on which [Subscribe] was accepted (callbacks 1 and 2) and the
    server acknowledged the initialization with the session id. *)
Definition subscribing_world (p : Platform) : World :=
  final_world
    ((Subscribe (Some remote_stream) default_options (Some 1) (Some 2) ;;
      on_subscribe_ack "session-9" "transport-9") (idle_world p)).

Definition local_stream : LocalStream.t :=
  {| LocalStream.MediaStream := Some sample_media;
     LocalStream.Source := camera_source;
     LocalStream.Attributes := [("name", "cam")] |}.

(** A local stream whose underlying media handle is null. *)
Definition local_stream_without_media : LocalStream.t :=
  {| LocalStream.MediaStream := None;
     LocalStream.Source := camera_source;
     LocalStream.Attributes := [] |}.

(** A channel with observers 7 and 8 on which [Publish] was accepted
    (callbacks 1 and 2) and the server assigned the session id. *)
Definition publishing_world (p : Platform) : World :=
  final_world
    ((AddObserver 7 ;;
      AddObserver 8 ;;
      Publish (Some local_stream) (Some 1) (Some 2) ;;
      SetSessionId "session-3") (idle_world p)).

(** ** The null preconditions of Publish, as the specification words them

    Both null checks run; each one that fails reports to the failure
    callback; the call then returns, the channel being as it was.  With a
    null stream both checks fail, with a null media handle only the second
    does. *)
Definition failing_null_checks (stream : option LocalStream.t) : nat :=
  match stream with
  | None => 2
  | Some s => match LocalStream.MediaStream s with None => 1 | Some _ => 0 end
  end.

Definition null_preconditions_as_specified (w : World)
  (stream : option LocalStream.t) (on_success : option SuccessCallback)
  (on_failure : FailureCallback) : Prop :=
  let o := Publish stream on_success (Some on_failure) w in
  returned o = true /\
  event_queue_ (final_world o) =
    (event_queue_ w ++
     repeat (TaskReportFailure on_failure "Nullptr is not allowed.")
            (failing_null_checks stream))%list /\
  this (final_world o) = this w.

(** The reports one null check posts. *)
Definition null_report (on_failure : option FailureCallback) : list Task :=
  match on_failure with
  | Some f => [TaskReportFailure f "Nullptr is not allowed."]
  | None => []
  end.

(* ================================================================== *)
(** * The rest of the channel *)
(* ================================================================== *)

(** ** Removed candidates, connection state, description failures *)

Module cricket.
End cricket.



(** Lines 204-223. *)
Definition OnIceConnectionChange
  (new_state : PeerConnectionInterface.IceConnectionState) : M unit :=
  match new_state with
  | PeerConnectionInterface.kIceConnectionConnected
  | PeerConnectionInterface.kIceConnectionCompleted =>
      update (set_connected_ true)
  | PeerConnectionInterface.kIceConnectionFailed =>
      c <- get_this ;;
      (if connected_ c then OnStreamError "Stream ICE connection failed."
       else ret tt) ;;
      update (set_connected_ false)
  | _ => ret tt
  end.

(** Lines 340-350: the failure callback is called in place, not through
    the task queue. *)
Definition OnSetLocalSessionDescriptionFailure (error : string) : M unit :=
  c <- get_this ;;
  match failure_callback_ c with
  | Some callback =>
      call (InvokeFailure callback "Failed to set local description.") ;;
      ResetCallbacks
  | None => ret tt
  end ;;
  OnStreamError "Failed to set local description.".

(** Lines 354-364. *)
Definition OnSetRemoteSessionDescriptionFailure (error : string) : M unit :=
  c <- get_this ;;
  match failure_callback_ c with
  | Some callback =>
      call (InvokeFailure callback "Fail to set remote description.") ;;
      ResetCallbacks
  | None => ret tt
  end ;;
  OnStreamError "Failed to set remote description.".

(** ** Runs that include restart requests *)

Inductive ChannelEvent :=
| Transport (e : TransportEvent)
| RestartRequested.

Definition handle (e : ChannelEvent) : M unit :=
  match e with
  | Transport e => deliver e
  | RestartRequested => IceRestart
  end.

Definition handle_all (events : list ChannelEvent) : M unit :=
  for_each handle events.

(** The candidates of such a run, in generation order. *)
Fixpoint generated_in (events : list ChannelEvent) : list IceCandidateInterface :=
  match events with
  | [] => []
  | Transport (CandidateGenerated candidate) :: rest => candidate :: generated_in rest
  | _ :: rest => generated_in rest
  end.

(** [subseq l1 l2]: [l1] is [l2] with some elements left out. *)
Inductive subseq {A : Type} : list A -> list A -> Prop :=
| subseq_nil : subseq [] []
| subseq_skip (x : A) (l1 l2 : list A) : subseq l1 l2 -> subseq l1 (x :: l2)
| subseq_keep (x : A) (l1 l2 : list A) : subseq l1 l2 -> subseq (x :: l1) (x :: l2).

(** The offers requested from the peer connection, counted. *)
Fixpoint offers (t : list Effect) : nat :=
  match t with
  | [] => 0
  | PcCreateOffer _ :: rest => S (offers rest)
  | _ :: rest => offers rest
  end.

(** The success-callback invocations in a trace. *)
Fixpoint success_calls (t : list Effect) : list (SuccessCallback * string) :=
  match t with
  | [] => []
  | InvokeSuccess callback session_id :: rest =>
      (callback, session_id) :: success_calls rest
  | _ :: rest => success_calls rest
  end.

(** The observer notifications in a trace. *)
Fixpoint notifications (t : list Effect) : list (Observer * string) :=
  match t with
  | [] => []
  | ObserverOnStreamError observer _ what :: rest =>
      (observer, what) :: notifications rest
  | _ :: rest => notifications rest
  end.

(** [n] copies of an action, one after the other. *)
Fixpoint times (n : nat) (m : M unit) : M unit :=
  match n with
  | O => ret tt
  | S k => m ;; times k m
  end.

(** The tasks one failure report posts: none when the callback is null. *)
Definition failure_report (on_failure : option FailureCallback) (what : string)
  : list Task :=
  match on_failure with
  | Some f => [TaskReportFailure f what]
  | None => []
  end.

(** All three callback slots empty, as [ResetCallbacks] leaves them. *)
Definition callbacks_cleared (c : Channel) : Channel :=
  set_failure_callback_ None
    (set_subscribe_success_callback_ None
       (set_publish_success_callback_ None c)).

(** What runs with restart requests rely on: nothing is queued while the
    signaling state is stable, and the peer connection is open. *)
Definition open_buffer_invariant (w : World) : Prop :=
  (PeerConnectionInterface.is_stable (signaling_state_ (this w)) = true ->
   ice_candidates_ (this w) = []) /\
  peer_connection_ (this w) <> None.

(** Some audio or video track of the media stream is live. *)
Definition has_live_track (ms : MediaStreamInterface.t) : bool :=
  existsb MediaStreamTrack.is_live (MediaStreamInterface.GetAudioTracks ms) ||
  existsb MediaStreamTrack.is_live (MediaStreamInterface.GetVideoTracks ms).

(** The channel after an accepted [Publish]. *)
Definition publishing (stream : LocalStream.t) (on_success : option SuccessCallback)
  (on_failure : option FailureCallback) (c : Channel) : Channel :=
  set_transceiver_directions kSendOnly kSendOnly
    (set_failure_callback_ on_failure
       (set_publish_success_callback_ on_success
          (set_published_stream_ (Some stream) c))).

(** The channel after an accepted [Subscribe]. *)
Definition subscribing (stream : RemoteStream.t) (on_success : option SuccessCallback)
  (on_failure : option FailureCallback) (c : Channel) : Channel :=
  set_subscribed_stream_ (Some stream)
    (set_failure_callback_ on_failure
       (set_subscribe_success_callback_ on_success c)).

(** The kinds a subscribe asks for: the stream has them and the options do
    not disable them. *)
Definition audio_wanted (stream : RemoteStream.t) (o : SubscribeOptions.t) : bool :=
  RemoteStream.has_audio_ stream &&
  negb (AudioSubscriptionConstraints.disabled (SubscribeOptions.audio o)).
Definition video_wanted (stream : RemoteStream.t) (o : SubscribeOptions.t) : bool :=
  RemoteStream.has_video_ stream &&
  negb (VideoSubscriptionConstraints.disabled (SubscribeOptions.video o)).

(** The transceivers an accepted subscribe adds. *)
Definition receive_transceivers (stream : RemoteStream.t) (o : SubscribeOptions.t)
  : list Effect :=
  ((if audio_wanted stream o then [AddTransceiver MEDIA_TYPE_AUDIO kRecvOnly] else []) ++
   (if video_wanted stream o then [AddTransceiver MEDIA_TYPE_VIDEO kRecvOnly] else []))%list.

(** ** Reading a payload back *)

(** [message->get_map()[key]] on an object. *)
Definition member (key : string) (message : sio_message) : option sio_message :=
  match message with
  | object_message m => map_find key m
  | _ => None
  end.

(** The entries of [media.tracks]. *)
Definition tracks_of (options : sio_message) : list sio_message :=
  match member "media" options with
  | Some media =>
      match member "tracks" media with
      | Some (array_message v) => v
      | _ => []
      end
  | None => []
  end.

(** The string under [key], when there is one. *)
Definition string_member (key : string) (message : sio_message) : option string :=
  match member key message with
  | Some (string_message s) => Some s
  | _ => None
  end.

(** The first track entry of the given type. *)
Definition track_of_type (type : string) (options : sio_message) : option sio_message :=
  find (fun track =>
          match string_member "type" track with
          | Some s => String.eqb s type
          | None => false
          end)
       (tracks_of options).

(** The attributes object of a publish payload. *)
Definition attributes_of (options : sio_message) : sio_message :=
  match member "attributes" options with
  | Some attributes => attributes
  | None => object_message []
  end.

(* ================================================================== *)
(** * Properties *)
(* ================================================================== *)

(** ** SubOptionAllowed *)

Lemma rid_search_In (rid : string) (l : list VideoPublicationSettings.t) :
  rid_search rid l = true <->
  exists vs, In vs l /\ VideoPublicationSettings.rid vs = rid.
Proof.
  induction l as [|a l IH]; simpl.
  - split; [discriminate | intros [vs [[] _]]].
  - destruct (String.eqb_spec (VideoPublicationSettings.rid a) rid) as [E|NE].
    + split; [intros _; exists a; auto | reflexivity].
    + rewrite IH. split.
      * intros [vs [Hin Hr]]. exists vs. auto.
      * intros [vs [[->|Hin] Hr]]; [contradiction | exists vs; auto].
Qed.

Lemma settings_loop_flags (v : VideoSubscriptionConstraints.t)
  (l : list VideoPublicationSettings.t) (f : SupportFlags) :
  fold_left (settings_loop_body v) l f =
  {| resolution_supported :=
       resolution_supported f ||
       (resolution_requested v &&
        existsb (fun vs => Resolution_eqb (VideoPublicationSettings.resolution vs)
                             (VideoSubscriptionConstraints.resolution v)) l);
     frame_rate_supported :=
       frame_rate_supported f ||
       (double_ne_zero (VideoSubscriptionConstraints.frameRate v) &&
        existsb (fun vs => double_eqb (VideoPublicationSettings.frame_rate vs)
                             (VideoSubscriptionConstraints.frameRate v)) l);
     keyframe_interval_supported :=
       keyframe_interval_supported f ||
       (negb (VideoSubscriptionConstraints.keyFrameInterval v =? 0)%N &&
        existsb (fun vs => (VideoPublicationSettings.keyframe_interval vs =?
                            VideoSubscriptionConstraints.keyFrameInterval v)%N) l)
  |}.
Proof.
  revert f. induction l as [|a l IH]; intros f.
  - destruct f; simpl. now rewrite !andb_false_r, !orb_false_r.
  - simpl fold_left. rewrite IH. unfold settings_loop_body, resolution_requested,
      Resolution_eqb. simpl.
    destruct f as [r fr k]; simpl.
    f_equal.
    + destruct (negb (width (VideoSubscriptionConstraints.resolution v) =? 0)%N),
        (negb (height (VideoSubscriptionConstraints.resolution v) =? 0)%N),
        (width (VideoPublicationSettings.resolution a) =?
         width (VideoSubscriptionConstraints.resolution v))%N,
        (height (VideoPublicationSettings.resolution a) =?
         height (VideoSubscriptionConstraints.resolution v))%N, r; reflexivity.
    + destruct (double_ne_zero (VideoSubscriptionConstraints.frameRate v)),
        (double_eqb (VideoPublicationSettings.frame_rate a)
           (VideoSubscriptionConstraints.frameRate v)), fr; reflexivity.
    + destruct (negb (VideoSubscriptionConstraints.keyFrameInterval v =? 0)%N),
        (VideoPublicationSettings.keyframe_interval a =?
         VideoSubscriptionConstraints.keyFrameInterval v)%N, k; reflexivity.
Qed.

Lemma Resolution_eqb_eq (a b : Resolution) : Resolution_eqb a b = true <-> a = b.
Proof.
  unfold Resolution_eqb. rewrite andb_true_iff, !N.eqb_eq.
  destruct a, b; simpl. split; [intros [-> ->]; reflexivity | now inversion 1].
Qed.

Lemma existsb_In_eqb {A} (eqb : A -> A -> bool) (x : A) (l : list A)
  (eqb_eq : forall a b, eqb a b = true <-> a = b) :
  existsb (fun y => eqb y x) l = true <-> In x l.
Proof.
  rewrite existsb_exists. split.
  - intros [y [Hin E]]. apply eqb_eq in E. now subst.
  - intros Hin. exists x. split; [assumption | now apply eqb_eq].
Qed.

Lemma resolution_flag_iff (o : SubscribeOptions.t) (s : PublicationSettings.t)
  (c : SubscriptionCapabilities.t) :
  let v := SubscribeOptions.video o in
  let res := VideoSubscriptionConstraints.resolution v in
  let flag := (width res =? 0)%N && (height res =? 0)%N ||
              resolution_requested v &&
              existsb (fun vs => Resolution_eqb (VideoPublicationSettings.resolution vs) res)
                      (PublicationSettings.video s) in
  (if negb (width res =? 0)%N && negb (height res =? 0)%N
   then if existsb (fun format => Resolution_eqb format res)
             (VideoSubscriptionCapabilities.resolutions (SubscriptionCapabilities.video c))
        then true else flag
   else flag) = true <-> resolution_option_supported o s c.
Proof.
  intros v res flag. subst flag. unfold resolution_option_supported, resolution_requested.
  fold v. fold res.
  assert (Hs : existsb (fun vs => Resolution_eqb (VideoPublicationSettings.resolution vs) res)
                 (PublicationSettings.video s) = true <->
               exists vs, In vs (PublicationSettings.video s) /\
                          VideoPublicationSettings.resolution vs = res).
  { rewrite existsb_exists. split; intros [vs [Hin E]]; exists vs; split; auto;
      now apply Resolution_eqb_eq. }
  assert (Hc := existsb_In_eqb Resolution_eqb res
                  (VideoSubscriptionCapabilities.resolutions (SubscriptionCapabilities.video c))
                  Resolution_eqb_eq).
  destruct (N.eqb_spec (width res) 0) as [W|W], (N.eqb_spec (height res) 0) as [H|H];
    simpl.
  - split; [intros _; left; auto | reflexivity].
  - split; [discriminate | intros [[_ H']|[[W' _] _]]; contradiction].
  - split; [discriminate | intros [[W' _]|[[_ H'] _]]; contradiction].
  - destruct (existsb (fun format => Resolution_eqb format res) _) eqn:Ec.
    + split; [intros _; right; split; auto; right; now apply Hc | reflexivity].
    + rewrite Hs. split.
      * intros Hx. right. split; auto.
      * intros [[W' _]|[_ [Hx|Hx]]]; [contradiction | assumption |].
        apply Hc in Hx. congruence.
Qed.

Lemma frame_rate_flag_iff (o : SubscribeOptions.t) (s : PublicationSettings.t)
  (c : SubscriptionCapabilities.t) :
  let fr := VideoSubscriptionConstraints.frameRate (SubscribeOptions.video o) in
  let flag := double_eqb fr double_zero ||
              double_ne_zero fr &&
              existsb (fun vs => double_eqb (VideoPublicationSettings.frame_rate vs) fr)
                      (PublicationSettings.video s) in
  (if double_ne_zero fr
   then if existsb (fun format => double_eqb format fr)
             (VideoSubscriptionCapabilities.frame_rates (SubscriptionCapabilities.video c))
        then true else flag
   else flag) = true <-> frame_rate_option_supported o s c.
Proof.
  intros fr flag. subst flag. unfold frame_rate_option_supported, double_ne_zero.
  fold fr. rewrite <- !existsb_exists.
  destruct (double_eqb fr double_zero); simpl.
  - split; [intros _; left; reflexivity | reflexivity].
  - destruct (existsb (fun format => double_eqb format fr) _) eqn:Ec.
    + split; [intros _; right; split; auto | reflexivity].
    + split.
      * intros Hx. right. split; auto.
      * intros [Hx|[_ [Hx|Hx]]]; [discriminate | assumption | discriminate].
Qed.

Lemma keyframe_interval_flag_iff (o : SubscribeOptions.t) (s : PublicationSettings.t)
  (c : SubscriptionCapabilities.t) :
  let k := VideoSubscriptionConstraints.keyFrameInterval (SubscribeOptions.video o) in
  let flag := (k =? 0)%N ||
              negb (k =? 0)%N &&
              existsb (fun vs => (VideoPublicationSettings.keyframe_interval vs =? k)%N)
                      (PublicationSettings.video s) in
  (if negb (k =? 0)%N
   then if existsb (fun format => (format =? k)%N)
             (VideoSubscriptionCapabilities.keyframe_intervals (SubscriptionCapabilities.video c))
        then true else flag
   else flag) = true <-> keyframe_interval_option_supported o s c.
Proof.
  intros k flag. subst flag. unfold keyframe_interval_option_supported. fold k.
  assert (Hs : existsb (fun vs => (VideoPublicationSettings.keyframe_interval vs =? k)%N)
                 (PublicationSettings.video s) = true <->
               exists vs, In vs (PublicationSettings.video s) /\
                          VideoPublicationSettings.keyframe_interval vs = k).
  { rewrite existsb_exists. split; intros [vs [Hin E]]; exists vs; split; auto;
      now apply N.eqb_eq. }
  assert (Hc := existsb_In_eqb N.eqb k
                  (VideoSubscriptionCapabilities.keyframe_intervals
                     (SubscriptionCapabilities.video c)) N.eqb_eq).
  destruct (N.eqb_spec k 0) as [K|K]; simpl.
  - split; [intros _; left; assumption | reflexivity].
  - destruct (existsb (fun format => (format =? k)%N) _) eqn:Ec.
    + split; [intros _; right; split; auto; right; now apply Hc | reflexivity].
    + rewrite Hs. split.
      * intros Hx. right. split; auto.
      * intros [K'|[_ [Hx|Hx]]]; [contradiction | assumption |].
        apply Hc in Hx. congruence.
Qed.

Lemma bitrate_multiplier_flag_iff (o : SubscribeOptions.t)
  (c : SubscriptionCapabilities.t) :
  let bm := VideoSubscriptionConstraints.bitrateMultiplier (SubscribeOptions.video o) in
  (if double_ne_zero bm
   then if existsb (fun format => double_eqb format bm)
             (VideoSubscriptionCapabilities.bitrate_multipliers (SubscriptionCapabilities.video c))
        then true else double_eqb bm double_zero
   else double_eqb bm double_zero) = true <-> bitrate_multiplier_option_supported o c.
Proof.
  intros bm. unfold bitrate_multiplier_option_supported, double_ne_zero. fold bm.
  rewrite <- existsb_exists.
  destruct (double_eqb bm double_zero); simpl.
  - split; [intros _; left; reflexivity | reflexivity].
  - destruct (existsb (fun format => double_eqb format bm) _) eqn:Ec.
    + split; [intros _; right; split; auto | reflexivity].
    + split; [discriminate | intros [Hx|[_ Hx]]; discriminate].
Qed.

(** With no rid requested the function is the conjunction of its four flags. *)
Lemma SubOptionAllowed_no_rid (o : SubscribeOptions.t) (s : PublicationSettings.t)
  (c : SubscriptionCapabilities.t) :
  VideoSubscriptionConstraints.rid (SubscribeOptions.video o) = "" ->
  (SubOptionAllowed o s c = true <->
   resolution_option_supported o s c /\ frame_rate_option_supported o s c /\
   keyframe_interval_option_supported o s c /\ bitrate_multiplier_option_supported o c).
Proof.
  intros Hrid. unfold SubOptionAllowed. rewrite Hrid. simpl negb. cbv iota.
  cbv zeta. rewrite settings_loop_flags. simpl resolution_supported.
  simpl frame_rate_supported. simpl keyframe_interval_supported.
  rewrite !andb_true_iff.
  rewrite (resolution_flag_iff o s c), (frame_rate_flag_iff o s c),
    (keyframe_interval_flag_iff o s c), (bitrate_multiplier_flag_iff o c).
  tauto.
Qed.

(** A resolution with exactly one zero dimension is neither unspecified
    nor requested, so no stream supports it. *)
Lemma SubOptionAllowed_half_specified_resolution (o : SubscribeOptions.t)
  (s : PublicationSettings.t) (c : SubscriptionCapabilities.t) :
  let v := SubscribeOptions.video o in
  let res := VideoSubscriptionConstraints.resolution v in
  VideoSubscriptionConstraints.rid v = "" ->
  (width res = 0 /\ height res <> 0)%N \/ (width res <> 0 /\ height res = 0)%N ->
  SubOptionAllowed o s c = false.
Proof.
  intros v res Hrid Hhalf.
  destruct (SubOptionAllowed o s c) eqn:E; [|reflexivity].
  apply (SubOptionAllowed_no_rid o s c Hrid) in E.
  destruct E as [Hres _]. unfold resolution_option_supported in Hres.
  fold v in Hres. fold res in Hres.
  destruct Hhalf as [[W H]|[W H]], Hres as [[W' H']|[[W' H'] _]]; congruence.
Qed.

(** C7.  When the request names a simulcast rid, [SubOptionAllowed] is true
    exactly when some video entry of the publication settings carries that
    rid, whatever the other requested options, settings and capabilities
    are; and a request with empty rid, resolution {0,0}, frame rate 0,
    keyframe interval 0 and bitrate multiplier 0 is allowed for every
    stream. *)
Theorem SubOptionAllowed_rid_is_sole_criterion :
  forall (o : SubscribeOptions.t) (s : PublicationSettings.t)
         (c : SubscriptionCapabilities.t),
    let v := SubscribeOptions.video o in
    (VideoSubscriptionConstraints.rid v <> "" ->
     (SubOptionAllowed o s c = true <->
      exists vs, In vs (PublicationSettings.video s) /\
                 VideoPublicationSettings.rid vs = VideoSubscriptionConstraints.rid v)) /\
    (VideoSubscriptionConstraints.rid v = "" ->
     VideoSubscriptionConstraints.resolution v = {| width := 0; height := 0 |} ->
     double_eqb (VideoSubscriptionConstraints.frameRate v) double_zero = true ->
     VideoSubscriptionConstraints.keyFrameInterval v = 0%N ->
     double_eqb (VideoSubscriptionConstraints.bitrateMultiplier v) double_zero = true ->
     SubOptionAllowed o s c = true).
Proof.
  intros o s c v. split.
  - intros Hrid. unfold SubOptionAllowed. fold v.
    destruct (String.eqb_spec (VideoSubscriptionConstraints.rid v) "") as [E|_];
      [contradiction|]. simpl. apply rid_search_In.
  - intros Hrid Hres Hfr Hk Hbm. apply SubOptionAllowed_no_rid; [exact Hrid|].
    unfold resolution_option_supported, frame_rate_option_supported,
      keyframe_interval_option_supported, bitrate_multiplier_option_supported.
    fold v. rewrite Hres. simpl. auto.
Qed.

Lemma SubOptionAllowed_rid_is_sole_criterion_witness :
  (VideoSubscriptionConstraints.rid (SubscribeOptions.video (options_with_rid "1")) <> "" /\
   (SubOptionAllowed (options_with_rid "1") simulcast_settings no_capabilities = true <->
    exists vs, In vs (PublicationSettings.video simulcast_settings) /\
               VideoPublicationSettings.rid vs = "1")) /\
  SubOptionAllowed default_options simulcast_settings no_capabilities = true.
Proof.
  split.
  - split; [discriminate|].
    apply (proj1 (SubOptionAllowed_rid_is_sole_criterion
                    (options_with_rid "1") simulcast_settings no_capabilities)).
    discriminate.
  - apply (proj2 (SubOptionAllowed_rid_is_sole_criterion
                    default_options simulcast_settings no_capabilities));
      reflexivity.
Defined.

(** C8.  With no simulcast rid requested, [SubOptionAllowed] is true exactly
    when each of resolution, frame rate, keyframe interval and bitrate
    multiplier is supported, an option being supported when it is zero in
    the request, or non-zero and matched by an entry of the publication
    settings or by the capability ranges. *)
Theorem SubOptionAllowed_four_independent_options :
  forall (o : SubscribeOptions.t) (s : PublicationSettings.t)
         (c : SubscriptionCapabilities.t),
    VideoSubscriptionConstraints.rid (SubscribeOptions.video o) = "" ->
    (SubOptionAllowed o s c = true <->
     resolution_option_supported o s c /\
     frame_rate_option_supported o s c /\
     keyframe_interval_option_supported o s c /\
     bitrate_multiplier_option_supported o c).
Proof. exact SubOptionAllowed_no_rid. Qed.

Lemma SubOptionAllowed_four_independent_options_witness :
  VideoSubscriptionConstraints.rid (SubscribeOptions.video default_options) = "" /\
  (SubOptionAllowed default_options simulcast_settings no_capabilities = true <->
   resolution_option_supported default_options simulcast_settings no_capabilities /\
   frame_rate_option_supported default_options simulcast_settings no_capabilities /\
   keyframe_interval_option_supported default_options simulcast_settings no_capabilities /\
   bitrate_multiplier_option_supported default_options no_capabilities).
Proof.
  split; [reflexivity|].
  apply (SubOptionAllowed_four_independent_options
           default_options simulcast_settings no_capabilities).
  reflexivity.
Defined.

(** The function on a few requests: a resolution is matched by a layer of
    the settings or by a capability, a frame rate that is NaN by nothing,
    an unknown rid by no layer. *)
Example SubOptionAllowed_resolution_in_settings :
  SubOptionAllowed (options_with 640 360 double_zero) simulcast_settings
    no_capabilities = true.
Proof. reflexivity. Qed.

Example SubOptionAllowed_resolution_in_capabilities :
  SubOptionAllowed (options_with 1280 720 double_30) simulcast_settings
    capabilities_720p = true.
Proof. reflexivity. Qed.

Example SubOptionAllowed_resolution_nowhere :
  SubOptionAllowed (options_with 1280 720 double_zero) simulcast_settings
    no_capabilities = false.
Proof. reflexivity. Qed.

Example SubOptionAllowed_frame_rate_nan :
  SubOptionAllowed (options_with 0 0 S754_nan) simulcast_settings
    no_capabilities = false.
Proof. reflexivity. Qed.

Example SubOptionAllowed_unknown_rid :
  SubOptionAllowed (options_with_rid "2") simulcast_settings no_capabilities = false.
Proof. reflexivity. Qed.

(** ** Running the monad *)

Lemma with_trace_same (w : World) : with_trace (trace w) w = w.
Proof. now destruct w. Qed.

Lemma for_each_call {A} (f : A -> Effect) (l : list A) (w : World) :
  for_each (fun x => call (f x)) l w =
  Done tt (with_trace (trace w ++ map f l) w).
Proof.
  revert w. induction l as [|a l IH]; intros w; simpl.
  - unfold ret. now rewrite app_nil_r, with_trace_same.
  - unfold bind, call at 1. rewrite IH. simpl. unfold with_trace. simpl.
    now rewrite <- app_assoc.
Qed.

Lemma transmitted_app (t1 t2 : list Effect) :
  transmitted (t1 ++ t2) = (transmitted t1 ++ transmitted t2)%list.
Proof.
  induction t1 as [|e t1 IH]; simpl; [reflexivity|].
  destruct e; simpl; now rewrite ?IH.
Qed.

Lemma transmitted_SendSdp (l : list sio_message) : transmitted (map SendSdp l) = l.
Proof. induction l as [|m l IH]; simpl; [reflexivity | now rewrite IH]. Qed.

(** ** Signaling-state changes and the candidate queue *)

Lemma OnSignalingChange_stable_restart (w : World) :
  ice_restart_needed_ (this w) = true ->
  peer_connection_ (this w) <> None ->
  OnSignalingChange PeerConnectionInterface.kStable w =
  Done tt
    (with_trace
       (trace w ++ [PcCreateOffer (negb (field_trial_OWT_IceUnbundle (platform w)))])
       (with_this
          (set_ice_candidates_ []
             (set_ice_restart_needed_ false
                (set_signaling_state_ PeerConnectionInterface.kStable (this w))))
          w)).
Proof.
  destruct w as [c e q t p]. destruct c. simpl. intros -> Hpc.
  destruct peer_connection_0 as [pc|]; [|congruence].
  reflexivity.
Qed.

Lemma OnSignalingChange_stable_drain (w : World) :
  ice_restart_needed_ (this w) = false ->
  OnSignalingChange PeerConnectionInterface.kStable w =
  Done tt
    (with_trace
       (trace w ++ map SendSdp (ice_candidates_ (this w)))
       (with_this
          (set_ice_candidates_ []
             (set_signaling_state_ PeerConnectionInterface.kStable (this w)))
          w)).
Proof.
  destruct w as [c e q t p]. destruct c. simpl. intros ->.
  unfold OnSignalingChange, DrainIceCandidates, bind, update, get_this. simpl.
  rewrite for_each_call. reflexivity.
Qed.

Lemma OnSignalingChange_not_stable (s : PeerConnectionInterface.SignalingState)
  (w : World) :
  PeerConnectionInterface.is_stable s = false ->
  OnSignalingChange s w = Done tt (with_this (set_signaling_state_ s (this w)) w).
Proof.
  intros Hs. unfold OnSignalingChange, bind, update. rewrite Hs. reflexivity.
Qed.

Lemma OnIceCandidate_stable (candidate : IceCandidateInterface) (w : World) :
  PeerConnectionInterface.is_stable (signaling_state_ (this w)) = true ->
  OnIceCandidate candidate w =
  Done tt (with_trace
             (trace w ++ [SendSdp (candidate_message (session_id_ (this w)) candidate)])
             w).
Proof.
  intros Hs. unfold OnIceCandidate, bind, get_this. rewrite Hs. reflexivity.
Qed.

Lemma OnIceCandidate_not_stable (candidate : IceCandidateInterface) (w : World) :
  PeerConnectionInterface.is_stable (signaling_state_ (this w)) = false ->
  OnIceCandidate candidate w =
  Done tt (with_this
             (set_ice_candidates_
                (ice_candidates_ (this w) ++
                 [candidate_message (session_id_ (this w)) candidate])
                (this w))
             w).
Proof.
  intros Hs. unfold OnIceCandidate, bind, get_this. rewrite Hs. reflexivity.
Qed.

Lemma deliver_step (e : TransportEvent) (w : World) :
  buffer_invariant w ->
  exists w',
    deliver e w = Done tt w' /\
    buffer_invariant w' /\
    session_id_ (this w') = session_id_ (this w) /\
    (transmitted (trace w') ++ ice_candidates_ (this w') =
     transmitted (trace w) ++ ice_candidates_ (this w) ++
     map (candidate_message (session_id_ (this w))) (generated [e]))%list.
Proof.
  unfold buffer_invariant. intros [Hrestart Hqueue].
  destruct e as [candidate|new_state]; simpl deliver.
  - destruct (PeerConnectionInterface.is_stable (signaling_state_ (this w))) eqn:Hs.
    + rewrite (OnIceCandidate_stable _ _ Hs). eexists. split; [reflexivity|].
      specialize (Hqueue eq_refl).
      destruct w as [c ex q t p]; simpl in *. rewrite Hqueue.
      split; [split; [assumption | intros _; auto]|].
      split; [reflexivity|].
      rewrite transmitted_app. simpl. now rewrite app_nil_r.
    + rewrite (OnIceCandidate_not_stable _ _ Hs). eexists. split; [reflexivity|].
      destruct w as [c ex q t p]; destruct c; simpl in *.
      split; [split; [assumption | intros Hs'; congruence]|].
      split; reflexivity.
  - destruct (PeerConnectionInterface.is_stable new_state) eqn:Hn.
    + destruct new_state; try discriminate.
      rewrite (OnSignalingChange_stable_drain _ Hrestart). eexists.
      split; [reflexivity|].
      destruct w as [c ex q t p]; destruct c; simpl in *.
      split; [split; [assumption | reflexivity]|].
      split; [reflexivity|].
      rewrite transmitted_app, transmitted_SendSdp. now rewrite !app_nil_r.
    + rewrite (OnSignalingChange_not_stable _ _ Hn). eexists. split; [reflexivity|].
      destruct w as [c ex q t p]; destruct c; simpl in *.
      split; [split; [assumption | intros Hs'; congruence]|].
      split; [reflexivity|]. now rewrite app_nil_r.
Qed.

Lemma generated_cons (e : TransportEvent) (events : list TransportEvent) :
  generated (e :: events) = (generated [e] ++ generated events)%list.
Proof. destruct e; reflexivity. Qed.

Lemma deliver_all_run (events : list TransportEvent) (w : World) :
  buffer_invariant w ->
  exists w',
    deliver_all events w = Done tt w' /\
    buffer_invariant w' /\
    session_id_ (this w') = session_id_ (this w) /\
    (transmitted (trace w') ++ ice_candidates_ (this w') =
     transmitted (trace w) ++ ice_candidates_ (this w) ++
     map (candidate_message (session_id_ (this w))) (generated events))%list.
Proof.
  revert w. induction events as [|e events IH]; intros w Hinv.
  - exists w. simpl. repeat split; try apply Hinv. now rewrite !app_nil_r.
  - destruct (deliver_step e w Hinv) as [w1 [Hrun [Hinv1 [Hid1 Hseq1]]]].
    destruct (IH w1 Hinv1) as [w2 [Hrun2 [Hinv2 [Hid2 Hseq2]]]].
    exists w2. unfold deliver_all in *. simpl for_each. unfold bind at 1.
    rewrite Hrun. split; [exact Hrun2|]. split; [exact Hinv2|].
    split; [congruence|].
    rewrite Hseq2, Hid1, generated_cons, map_app.
    rewrite (app_assoc (transmitted (trace w1))), Hseq1.
    now rewrite <- !app_assoc.
Qed.

(** C2.  On a signaling-state change to stable: when an ICE restart is
    pending, the flag is cleared, the candidate queue is emptied without
    any of its candidates being sent, and (the peer connection being open)
    one CreateOffer is issued; otherwise every queued candidate is sent in
    queue order and the queue is left empty.  Either way the queue is empty
    once the handler is through. *)
Theorem OnSignalingChange_into_stable :
  forall w : World,
    let o := OnSignalingChange PeerConnectionInterface.kStable w in
    (ice_restart_needed_ (this w) = true ->
     ice_restart_needed_ (this (final_world o)) = false /\
     transmitted (trace (final_world o)) = transmitted (trace w) /\
     (peer_connection_ (this w) <> None ->
      o = Done tt
            (with_trace
               (trace w ++
                [PcCreateOffer (negb (field_trial_OWT_IceUnbundle (platform w)))])
               (with_this
                  (set_ice_candidates_ []
                     (set_ice_restart_needed_ false
                        (set_signaling_state_ PeerConnectionInterface.kStable
                           (this w))))
                  w)))) /\
    (ice_restart_needed_ (this w) = false ->
     o = Done tt
           (with_trace
              (trace w ++ map SendSdp (ice_candidates_ (this w)))
              (with_this
                 (set_ice_candidates_ []
                    (set_signaling_state_ PeerConnectionInterface.kStable (this w)))
                 w))) /\
    ice_candidates_ (this (final_world o)) = [].
Proof.
  intros w o. subst o. split; [|split].
  - intros Hr. split; [|split].
    + destruct w as [c e q t p]; destruct c; simpl in *; subst.
      destruct peer_connection_0; reflexivity.
    + destruct w as [c e q t p]; destruct c; simpl in *; subst.
      destruct peer_connection_0; simpl; [|reflexivity].
      rewrite transmitted_app. simpl. now rewrite app_nil_r.
    + intros Hpc. now apply OnSignalingChange_stable_restart.
  - intros Hr. now apply OnSignalingChange_stable_drain.
  - destruct (ice_restart_needed_ (this w)) eqn:Hr.
    + destruct w as [c e q t p]; destruct c; simpl in *; subst.
      destruct peer_connection_0; reflexivity.
    + rewrite (OnSignalingChange_stable_drain _ Hr). reflexivity.
Qed.

(** C3.  A candidate is sent at once when the signaling state is stable and
    appended to the queue otherwise; and over any run of candidate and
    signaling-state notifications with no ICE restart pending, the messages
    sent so far followed by the messages still queued are exactly the
    candidates in generation order, so that whenever the run ends in the
    stable state everything generated has been sent, in that order. *)
Theorem candidates_sent_in_generation_order :
  forall (events : list TransportEvent) (w : World),
    buffer_invariant w ->
    (forall candidate,
        OnIceCandidate candidate w =
        if PeerConnectionInterface.is_stable (signaling_state_ (this w))
        then Done tt (with_trace
                        (trace w ++
                         [SendSdp (candidate_message (session_id_ (this w)) candidate)])
                        w)
        else Done tt (with_this
                        (set_ice_candidates_
                           (ice_candidates_ (this w) ++
                            [candidate_message (session_id_ (this w)) candidate])
                           (this w))
                        w)) /\
    exists w',
      deliver_all events w = Done tt w' /\
      buffer_invariant w' /\
      (transmitted (trace w') ++ ice_candidates_ (this w') =
       transmitted (trace w) ++ ice_candidates_ (this w) ++
       map (candidate_message (session_id_ (this w))) (generated events))%list /\
      (PeerConnectionInterface.is_stable (signaling_state_ (this w')) = true ->
       transmitted (trace w') =
       (transmitted (trace w) ++ ice_candidates_ (this w) ++
        map (candidate_message (session_id_ (this w))) (generated events))%list).
Proof.
  intros events w Hinv. split.
  - intros candidate.
    destruct (PeerConnectionInterface.is_stable (signaling_state_ (this w))) eqn:Hs.
    + now apply OnIceCandidate_stable.
    + now apply OnIceCandidate_not_stable.
  - destruct (deliver_all_run events w Hinv) as [w' [Hrun [Hinv' [_ Hseq]]]].
    exists w'. repeat split; try apply Hinv'; auto.
    intros Hs. rewrite <- Hseq. destruct Hinv' as [_ Hq].
    rewrite (Hq Hs). now rewrite app_nil_r.
Qed.

Lemma OnSignalingChange_into_stable_witness :
  (ice_restart_needed_ (this restart_pending_world) = true /\
   peer_connection_ (this restart_pending_world) <> None /\
   ice_candidates_ (this restart_pending_world) =
     [candidate_message "" candidate_A; candidate_message "" candidate_B] /\
   OnSignalingChange PeerConnectionInterface.kStable restart_pending_world =
   Done tt
     (with_trace [PcCreateOffer true]
        (with_this
           (set_ice_candidates_ []
              (set_ice_restart_needed_ false
                 (set_signaling_state_ PeerConnectionInterface.kStable
                    (this restart_pending_world))))
           restart_pending_world))) /\
  (ice_restart_needed_ (this queued_world) = false /\
   OnSignalingChange PeerConnectionInterface.kStable queued_world =
   Done tt
     (with_trace
        [SendSdp (candidate_message "" candidate_A);
         SendSdp (candidate_message "" candidate_B)]
        (with_this
           (set_ice_candidates_ []
              (set_signaling_state_ PeerConnectionInterface.kStable (this queued_world)))
           queued_world))).
Proof.
  split.
  - pose proof (OnSignalingChange_into_stable restart_pending_world) as H.
    cbv zeta in H. destruct H as [H _].
    destruct (H eq_refl) as [_ [_ Hoffer]].
    split; [reflexivity|]. split; [discriminate|]. split; [reflexivity|].
    apply Hoffer. discriminate.
  - pose proof (OnSignalingChange_into_stable queued_world) as H.
    cbv zeta in H. destruct H as [_ [H _]].
    split; [reflexivity|]. apply H. reflexivity.
Defined.

Lemma candidates_sent_in_generation_order_witness :
  buffer_invariant (idle_world sample_platform) /\
  exists w',
    deliver_all sample_run (idle_world sample_platform) = Done tt w' /\
    transmitted (trace w') =
      map (candidate_message "")
          [candidate_A; candidate_B; candidate_C; candidate_D].
Proof.
  assert (Hinv : buffer_invariant (idle_world sample_platform)).
  { split; reflexivity. }
  split; [exact Hinv|].
  destruct (candidates_sent_in_generation_order sample_run
              (idle_world sample_platform) Hinv)
    as [_ [w' [Hrun [Hinv' [_ Hstable]]]]].
  exists w'. split; [exact Hrun|].
  assert (Hw : PeerConnectionInterface.is_stable (signaling_state_ (this w')) = true).
  { vm_compute in Hrun. injection Hrun as <-. reflexivity. }
  rewrite (Hstable Hw). reflexivity.
Defined.

(** ** The subscribe readiness gate *)

(** C1.  While a subscribe is pending (its success callback registered, no
    publish callback, both readiness flags down, nothing queued, channel
    alive), one arrival alone posts nothing; the two arrivals, in either
    order, lead to the same world, in which exactly one task is posted and
    both flags are already back to false; running the queue invokes the
    callback once with the session id and clears the callbacks; and a
    further pair of arrivals fires nothing. *)
Theorem subscribe_success_fires_once_in_either_order :
  forall (w : World) (callback : SuccessCallback) (stream : MediaStreamInterface.t),
    subscribe_success_callback_ (this w) = Some callback ->
    publish_success_callback_ (this w) = None ->
    sub_stream_added_ (this w) = false ->
    sub_server_ready_ (this w) = false ->
    event_queue_ w = [] ->
    expired w = false ->
    let ack := OnSignalingMessage (Some (string_message "success")) in
    let attach := OnAddStream stream in
    exists wa ws w1 w2,
      (ack w = Done tt wa /\ event_queue_ wa = [] /\ trace wa = trace w /\
       sub_server_ready_ (this wa) = true /\ sub_stream_added_ (this wa) = false) /\
      (attach w = Done tt ws /\ event_queue_ ws = [] /\ trace ws = trace w /\
       sub_server_ready_ (this ws) = false /\ sub_stream_added_ (this ws) = true) /\
      ((ack ;; attach) w = Done tt w1 /\ (attach ;; ack) w = Done tt w1 /\
       event_queue_ w1 = [TaskSubscribeSuccess] /\ trace w1 = trace w /\
       sub_server_ready_ (this w1) = false /\ sub_stream_added_ (this w1) = false) /\
      (run_event_queue w1 = Done tt w2 /\
       trace w2 = (trace w ++ [InvokeSuccess callback (session_id_ (this w))])%list /\
       event_queue_ w2 = [] /\
       subscribe_success_callback_ (this w2) = None /\
       publish_success_callback_ (this w2) = None /\
       failure_callback_ (this w2) = None /\
       sub_server_ready_ (this w2) = false /\ sub_stream_added_ (this w2) = false) /\
      (ack ;; attach ;; run_event_queue) w2 = Done tt w2.
Proof.
  intros w callback stream Hsub Hpub Hadded Hready Hq Hexp ack attach.
  subst ack attach.
  destruct w as [c ex q t p]. destruct c. simpl in *. subst.
  destruct subscribed_stream_0 as [s|]; do 4 eexists;
    repeat match goal with |- _ /\ _ => split end.
  all: cbv -[String.append app]; reflexivity.
Qed.

Lemma subscribe_success_fires_once_in_either_order_witness :
  exists w2,
    (OnSignalingMessage (Some (string_message "success")) ;;
     OnAddStream sample_media ;;
     run_event_queue) (subscribing_world sample_platform) = Done tt w2 /\
    (OnAddStream sample_media ;;
     OnSignalingMessage (Some (string_message "success")) ;;
     run_event_queue) (subscribing_world sample_platform) = Done tt w2 /\
    trace w2 = (trace (subscribing_world sample_platform) ++
                [InvokeSuccess 1 "session-9"])%list.
Proof.
  destruct (subscribe_success_fires_once_in_either_order
              (subscribing_world sample_platform) 1 sample_media
              eq_refl eq_refl eq_refl eq_refl eq_refl eq_refl)
    as [wa [ws [w1 [w2 [_ [_ [[Ha [Hb _]] [[Hrun [Htrace _]] _]]]]]]]].
  exists w2. split; [|split].
  - unfold bind in *. destruct (OnSignalingMessage _ _); try discriminate.
    destruct (OnAddStream _ w); try discriminate.
    injection Ha as _ ->. exact Hrun.
  - unfold bind in *. destruct (OnAddStream _ _); try discriminate.
    destruct (OnSignalingMessage _ w); try discriminate.
    injection Hb as _ ->. exact Hrun.
  - exact Htrace.
Defined.

(** ** Accepted and rejected requests on an idle channel *)

(** A subscribe naming a rid no layer carries is answered with the fault and
    nothing else happens. *)
Example Subscribe_unknown_rid_is_rejected :
  forall p : Platform,
    Subscribe (Some remote_stream) (options_with_rid "2") (Some 1) (Some 2)
      (idle_world p) =
    Done tt
      (with_event_queue_ [TaskReportFailure 2 "Unsupported subscribe option."]
         (idle_world p)).
Proof. intros p. reflexivity. Qed.

(** Publishing a camera stream with one audio and one video track sends the
    initialization message with mid 0 for audio and mid 1 for video. *)
Example Publish_audio_and_video :
  forall p : Platform,
    trace (final_world (Publish (Some local_stream) (Some 1) (Some 2) (idle_world p))) =
    [SendInitializationMessage
       (object_message
          [("attributes", object_message [("name", string_message "cam")]);
           ("media",
            object_message
              [("tracks",
                array_message
                  [object_message
                     [("type", string_message "audio");
                      ("mid", string_message "0");
                      ("source", string_message "mic")];
                   object_message
                     [("type", string_message "video");
                      ("mid", string_message "1");
                      ("source", string_message "camera")]])]);
           ("transport", object_message [("type", string_message "webrtc")])])
       "media-1" "" (PublishAck local_stream) (Some 2)].
Proof. intros p. reflexivity. Qed.

(** ** Subscribe while a subscribe is in flight *)

(** C4 (the code departs from it).  On a channel whose subscribe is still
    in flight, a second [Subscribe] posts the fault and then carries on: it
    replaces both callback slots, adds the receive-only transceivers and
    sends another initialization message. *)
Theorem Subscribe_in_flight_is_not_rejected :
  forall p : Platform,
    let w := subscribing_world p in
    subscribe_success_callback_ (this w) = Some 1 /\
    failure_callback_ (this w) = Some 2 /\
    exists w',
      Subscribe (Some remote_stream) default_options (Some 3) (Some 4) w = Done tt w' /\
      event_queue_ w' =
        (event_queue_ w ++ [TaskReportFailure 4 "Subscribing this stream."])%list /\
      subscribe_success_callback_ (this w') = Some 3 /\
      failure_callback_ (this w') = Some 4 /\
      trace w' =
        (trace w ++
         [AddTransceiver MEDIA_TYPE_AUDIO kRecvOnly;
          AddTransceiver MEDIA_TYPE_VIDEO kRecvOnly;
          SendInitializationMessage
            (subscribe_options_message p remote_stream default_options 1 1)
            "" "remote-1" SubscribeAck (Some 4)])%list.
Proof.
  intros p w. subst w. split; [reflexivity|]. split; [reflexivity|].
  eexists. repeat match goal with |- _ /\ _ => split end.
  all: cbv; reflexivity.
Qed.

(** ** The null checks of Publish *)

Lemma Publish_null_stream (w : World) (on_success : option SuccessCallback)
  (on_failure : option FailureCallback) :
  Publish None on_success on_failure w =
  Fatal NullDereference
    (with_event_queue_ (event_queue_ w ++ null_report on_failure)
       (with_this (set_published_stream_ None (this w)) w)).
Proof.
  destruct w as [c e q t p]. destruct on_failure as [f|]; cbv -[app].
  - reflexivity.
  - now rewrite app_nil_r.
Qed.

Lemma Publish_null_media_handle (w : World) (s : LocalStream.t)
  (on_success : option SuccessCallback) (on_failure : option FailureCallback) :
  LocalStream.MediaStream s = None ->
  Publish (Some s) on_success on_failure w =
  Fatal CheckFailed
    (with_event_queue_ (event_queue_ w ++ null_report on_failure)
       (with_this (set_published_stream_ (Some s) (this w)) w)).
Proof.
  intros Hs. destruct w as [c e q t p].
  unfold Publish, bind, update, CheckNullPointer, deref, IsMediaStreamEnded,
    RTC_CHECK, ret, fatal. simpl. rewrite Hs. simpl.
  destruct on_failure as [f|]; cbv -[app].
  - reflexivity.
  - now rewrite app_nil_r.
Qed.

(** C5 as worded fails: with a null stream only the first null check runs,
    so one fault is reported, not two. *)
Lemma Publish_null_stream_reports_once :
  ~ null_preconditions_as_specified (idle_world sample_platform) None (Some 1) 2.
Proof.
  unfold null_preconditions_as_specified. intros [_ [Hq _]].
  vm_compute in Hq. discriminate Hq.
Qed.

(** C5, amended.  When [Publish] is given a null stream, the first null
    check reports one fault to the failure callback (if there is one) and
    the second check is not evaluated; when the stream is non-null and its
    media handle is null, the first check passes and the second reports one
    fault.  Up to that point nothing leaves the channel, and the only change
    to its state is that the argument has been recorded as the published
    stream. *)
Theorem Publish_null_checks_report_once :
  forall (w : World) (on_success : option SuccessCallback)
         (on_failure : option FailureCallback),
    (let o := Publish None on_success on_failure w in
     event_queue_ (final_world o) = (event_queue_ w ++ null_report on_failure)%list /\
     this (final_world o) = set_published_stream_ None (this w) /\
     trace (final_world o) = trace w) /\
    (forall s : LocalStream.t,
        LocalStream.MediaStream s = None ->
        let o := Publish (Some s) on_success on_failure w in
        event_queue_ (final_world o) = (event_queue_ w ++ null_report on_failure)%list /\
        this (final_world o) = set_published_stream_ (Some s) (this w) /\
        trace (final_world o) = trace w).
Proof.
  intros w on_success on_failure. split.
  - cbv zeta. rewrite Publish_null_stream. repeat split.
  - intros s Hs. cbv zeta. rewrite (Publish_null_media_handle _ _ _ _ Hs).
    repeat split.
Qed.

Lemma Publish_null_checks_report_once_witness :
  LocalStream.MediaStream local_stream_without_media = None /\
  event_queue_
    (final_world (Publish (Some local_stream_without_media) (Some 1) (Some 2)
                    (idle_world sample_platform))) =
  [TaskReportFailure 2 "Nullptr is not allowed."].
Proof.
  split; [reflexivity|].
  apply (proj2 (Publish_null_checks_report_once
                  (idle_world sample_platform) (Some 1) (Some 2))
               local_stream_without_media eq_refl).
Defined.

(** ** Stream errors *)

(** Whatever the channel holds, every observer is called with a null
    stream: the local [error_stream] is still null while the observers are
    notified. *)
Lemma OnStreamError_observers_get_null (error_message : string) (w : World) :
  exists rest,
    trace (final_world (OnStreamError error_message w)) =
    (trace w ++
     map (fun its => ObserverOnStreamError its None error_message)
         (observers_ (this w)) ++ rest)%list.
Proof.
  destruct w as [c e q t p]. destruct c. destruct p as [dcheck ft ts i64 cs].
  unfold OnStreamError. unfold bind at 1. unfold get_this at 1. simpl.
  unfold bind at 1. rewrite for_each_call. simpl.
  unfold Unpublish, Unsubscribe, GetSessionId, ClosePeerConnection, RunInEventQueue,
    RTC_DCHECK, post_failure, bind, get_this, get_platform, update, call, ret, fatal.
  simpl.
  destruct published_stream_0, subscribed_stream_0, peer_connection_0,
    subscribe_success_callback_0, dcheck; simpl;
    rewrite ?String.eqb_refl; simpl; rewrite ?String.eqb_refl; simpl;
    rewrite <- ?app_assoc;
    first [ eexists; reflexivity | exists []; now rewrite app_nil_r ].
Qed.

(** C6 (the code departs from it).  On a publishing channel with observers
    7 and 8, a stream error reaches both observers with a null stream, not
    with the published stream; the unpublish that follows is as claimed. *)
Theorem OnStreamError_passes_null_stream_to_observers :
  forall p : Platform,
    let w := publishing_world p in
    published_stream_ (this w) = Some local_stream /\
    observers_ (this w) = [7; 8] /\
    exists w',
      OnStreamError "Stream ICE connection failed." w = Done tt w' /\
      trace w' =
        (trace w ++
         [ObserverOnStreamError 7 None "Stream ICE connection failed.";
          ObserverOnStreamError 8 None "Stream ICE connection failed.";
          SendStreamEvent "unpublish" "session-3" None None;
          PcClose])%list.
Proof.
  intros p w. subst w. split; [reflexivity|]. split; [reflexivity|].
  eexists. split; cbv; reflexivity.
Qed.

(** ** Tasks that outlive the channel *)

(** Each of the three closures over [weak_this] dereferences the locked
    pointer before testing it. *)
Lemma weak_task_on_expired_channel (task : Task) (w : World) :
  task = TaskPublishSuccess \/ task = TaskSubscribeSuccess \/ task = TaskServerFailure ->
  expired w = true ->
  run_task task w = Fatal NullDereference w.
Proof.
  intros [-> | [-> | ->]] Hexp; destruct w as [c e q t p]; simpl in Hexp; subst;
    reflexivity.
Qed.

(** The closure built by [RunInEventQueue] tests the pointer first and does
    nothing on an expired channel. *)
Lemma queued_callback_on_expired_channel (q : QueuedCallback) (w : World) :
  expired w = true -> run_queued_callback q w = Done tt w.
Proof.
  intros Hexp. destruct q, w as [c e qu t p]; simpl in Hexp; subst. reflexivity.
Qed.

(** C9 (the code departs from it).  A subscribe becomes ready, so its
    success task is posted; the channel is destroyed before the queue runs;
    the task then dereferences the null pointer it got from [weak_this]
    instead of returning silently. *)
Theorem posted_task_dereferences_destroyed_channel :
  forall p : Platform,
    let w := subscribing_world p in
    exists w',
      (OnSignalingMessage (Some (string_message "success")) ;;
       OnAddStream sample_media ;;
       destroy) w = Done tt w' /\
      expired w' = true /\
      event_queue_ w' = [TaskSubscribeSuccess] /\
      run_event_queue w' = Fatal NullDereference (with_event_queue_ [] w').
Proof.
  intros p w. subst w. eexists.
  repeat match goal with |- _ /\ _ => split end.
  all: cbv; reflexivity.
Qed.

(** ** What Publish leaves behind *)

(** The argument is recorded before anything else, and nothing later in
    [Publish] touches [published_stream_]. *)
Lemma Publish_records_stream_first (stream : option LocalStream.t)
  (on_success : option SuccessCallback) (on_failure : option FailureCallback)
  (w : World) :
  published_stream_ (this (final_world (Publish stream on_success on_failure w)))
  = stream.
Proof.
  destruct stream as [s|]; [|now rewrite Publish_null_stream].
  destruct (LocalStream.MediaStream s) as [ms|] eqn:Hms;
    [|now rewrite (Publish_null_media_handle _ _ _ _ Hms)].
  destruct w as [c e q t p].
  unfold Publish, SendPublishMessage, IsMediaStreamEnded, CheckNullPointer,
    RTC_CHECK, post_failure, deref, bind, update, call, ret, fatal.
  simpl. rewrite Hms. simpl.
  destruct (existsb MediaStreamTrack.is_live (MediaStreamInterface.GetAudioTracks ms)),
    (existsb MediaStreamTrack.is_live (MediaStreamInterface.GetVideoTracks ms)),
    on_failure,
    (Nat.eqb (List.length (MediaStreamInterface.GetAudioTracks ms)) 0),
    (Nat.eqb (List.length (MediaStreamInterface.GetVideoTracks ms)) 0);
    reflexivity.
Qed.

(** With a published stream held, control messages go out as stream
    control messages with the outgoing action. *)
Lemma SendStreamControlMessage_as_publisher (w : World) (s : LocalStream.t)
  (in_action out_action operation : string)
  (on_success : option VoidCallback) (on_failure : option FailureCallback) :
  published_stream_ (this w) = Some s ->
  SendStreamControlMessage in_action out_action operation on_success on_failure w =
  Done tt
    (with_trace
       (trace w ++
        [SendStreamControlMessage_ (session_id_ (this w)) out_action operation
           on_success on_failure])
       w).
Proof.
  intros Hp. unfold SendStreamControlMessage, bind, get_this. rewrite Hp. reflexivity.
Qed.

(** C10 (the code departs from it).  [Publish] with a stream whose media
    handle is null records the stream and reports the fault, but it does not
    return: it goes on to [IsMediaStreamEnded], whose [RTC_CHECK] ends the
    process. *)
Theorem Publish_null_media_handle_does_not_return :
  forall p : Platform,
    Publish (Some local_stream_without_media) (Some 1) (Some 2) (idle_world p) =
    Fatal CheckFailed
      (with_event_queue_ [TaskReportFailure 2 "Nullptr is not allowed."]
         (with_this
            (set_published_stream_ (Some local_stream_without_media) idle_channel)
            (idle_world p))).
Proof. intros p. reflexivity. Qed.

(* ================================================================== *)
(** * Further properties of the channel *)
(* ================================================================== *)

(** ** Tools *)

Lemma with_event_queue_same (w : World) : with_event_queue_ (event_queue_ w) w = w.
Proof. now destruct w. Qed.

Lemma with_this_same (w : World) : with_this (this w) w = w.
Proof. now destruct w. Qed.

Lemma post_failure_run (on_failure : option FailureCallback) (what : string)
  (w : World) :
  post_failure on_failure what w =
  Done tt (with_event_queue_ (event_queue_ w ++ failure_report on_failure what) w).
Proof.
  destruct on_failure; simpl; [reflexivity|].
  unfold ret. now rewrite app_nil_r, with_event_queue_same.
Qed.

(** Unfolding of the monad and of the small member functions. *)
Ltac step :=
  unfold Unpublish, Unsubscribe, GetSessionId, ClosePeerConnection,
    RunInEventQueue, ResetCallbacks, SetSessionId, SignalingState, CreateOffer,
    DoIceRestart, IceRestart, RTC_DCHECK, RTC_CHECK, deref, bind, get_this,
    get_platform, update, call, PostTask, ret, fatal in *.

(** ** Teardown *)

(** X1.  [Unpublish] and [Unsubscribe] called with an id that is not the
    channel's session id report the fault to the failure callback, when
    there is one, and do nothing else: no event is sent, the connection is
    not closed, the channel is unchanged. *)
Theorem teardown_with_foreign_session_id :
  forall (w : World) (session_id : string) (on_success : option VoidCallback)
         (on_failure : option FailureCallback),
    session_id <> session_id_ (this w) ->
    Unpublish session_id on_success on_failure w =
      Done tt (with_event_queue_
                 (event_queue_ w ++
                  failure_report on_failure "Invalid stream to be unpublished.") w) /\
    Unsubscribe session_id on_success on_failure w =
      Done tt (with_event_queue_
                 (event_queue_ w ++
                  failure_report on_failure "Invalid stream to be unsubscribed.") w).
Proof.
  intros w session_id on_success on_failure Hid.
  apply String.eqb_neq in Hid.
  split.
  - unfold Unpublish, GetSessionId, bind, get_this, ret. simpl. rewrite Hid. simpl.
    apply post_failure_run.
  - unfold Unsubscribe, GetSessionId, bind, get_this, ret. simpl. rewrite Hid. simpl.
    apply post_failure_run.
Qed.

Lemma teardown_with_foreign_session_id_witness :
  "session-4" <> session_id_ (this (publishing_world sample_platform)) /\
  Unpublish "session-4" (Some 5) (Some 6) (publishing_world sample_platform) =
  Done tt (with_event_queue_ [TaskReportFailure 6 "Invalid stream to be unpublished."]
             (publishing_world sample_platform)).
Proof.
  assert (H : "session-4" <> session_id_ (this (publishing_world sample_platform)))
    by discriminate.
  split; [exact H|].
  exact (proj1 (teardown_with_foreign_session_id
                  (publishing_world sample_platform) "session-4" (Some 5) (Some 6) H)).
Defined.

(** X2.  Two [Unpublish] calls with the channel's own session id send the
    "unpublish" event twice but close the peer connection once: the second
    call finds [peer_connection_] null and skips the close. *)
Theorem Unpublish_twice_closes_once :
  forall (w : World) (on_success : option VoidCallback)
         (on_failure : option FailureCallback),
    let sid := session_id_ (this w) in
    let event :=
      SendStreamEvent "unpublish" sid (option_map InEventQueue on_success) on_failure in
    (Unpublish sid on_success on_failure ;; Unpublish sid on_success on_failure) w =
    Done tt
      (with_trace
         (trace w ++ [event] ++
          (if is_some (peer_connection_ (this w)) then [PcClose] else []) ++ [event])
         (with_this (set_peer_connection_ None (set_connected_ false (this w))) w)).
Proof.
  intros w on_success on_failure sid event. subst sid event.
  destruct w as [c e q t p]. destruct c. simpl.
  step. simpl. rewrite !String.eqb_refl. simpl.
  destruct peer_connection_0, on_success; simpl; rewrite ?String.eqb_refl; simpl;
    unfold with_trace, with_this; simpl; rewrite <- ?app_assoc; reflexivity.
Qed.

(** X3.  [Unsubscribe] with the right session id while the subscribe is still
    in flight reports the fault and changes nothing: no event is sent, the
    connection stays open, [connected_] keeps its value. *)
Theorem Unsubscribe_while_subscribing_is_refused :
  forall (w : World) (callback : SuccessCallback) (on_success : option VoidCallback)
         (on_failure : option FailureCallback),
    subscribe_success_callback_ (this w) = Some callback ->
    Unsubscribe (session_id_ (this w)) on_success on_failure w =
    Done tt
      (with_event_queue_
         (event_queue_ w ++
          failure_report on_failure "Cannot unsubscribe a stream during subscribing.")
         w).
Proof.
  intros w callback on_success on_failure Hsub.
  rewrite <- post_failure_run.
  destruct w as [c e q t p]. destruct c. simpl in *. subst.
  unfold Unsubscribe, GetSessionId, bind, get_this, ret. simpl.
  rewrite String.eqb_refl. reflexivity.
Qed.

Lemma Unsubscribe_while_subscribing_is_refused_witness :
  subscribe_success_callback_ (this (subscribing_world sample_platform)) = Some 1 /\
  Unsubscribe "session-9" (Some 5) (Some 6) (subscribing_world sample_platform) =
  Done tt
    (with_event_queue_
       [TaskReportFailure 6 "Cannot unsubscribe a stream during subscribing."]
       (subscribing_world sample_platform)).
Proof.
  split; [reflexivity|].
  exact (Unsubscribe_while_subscribing_is_refused
           (subscribing_world sample_platform) 1 (Some 5) (Some 6) eq_refl).
Defined.

(** X4.  A stream error on a channel that only subscribes and whose
    subscribe is still in flight notifies the observers and stops there: the
    [Unsubscribe] it attempts is refused, so no "unsubscribe" event is sent
    and the peer connection stays open. *)
Theorem OnStreamError_while_subscribing_does_not_tear_down :
  forall (w : World) (s : RemoteStream.t) (callback : SuccessCallback)
         (error_message : string),
    published_stream_ (this w) = None ->
    subscribed_stream_ (this w) = Some s ->
    subscribe_success_callback_ (this w) = Some callback ->
    OnStreamError error_message w =
    Done tt
      (with_trace
         (trace w ++
          map (fun its => ObserverOnStreamError its None error_message)
              (observers_ (this w)))
         w).
Proof.
  intros w s callback error_message Hpub Hsub Hcb.
  destruct w as [c e q t p]. destruct c. simpl in *. subst.
  unfold OnStreamError. unfold bind at 1. unfold get_this at 1. simpl.
  unfold bind at 1. rewrite for_each_call. simpl.
  step. simpl. rewrite String.eqb_refl. reflexivity.
Qed.

Lemma OnStreamError_while_subscribing_does_not_tear_down_witness :
  published_stream_ (this (subscribing_world sample_platform)) = None /\
  trace (final_world (OnStreamError "lost" (subscribing_world sample_platform))) =
  trace (subscribing_world sample_platform) /\
  peer_connection_
    (this (final_world (OnStreamError "lost" (subscribing_world sample_platform)))) =
  Some the_peer_connection.
Proof.
  split; [reflexivity|].
  rewrite (OnStreamError_while_subscribing_does_not_tear_down
             (subscribing_world sample_platform) remote_stream 1 "lost"
             eq_refl eq_refl eq_refl).
  split; reflexivity.
Defined.

(** ** Acknowledgements *)

Lemma bind_Done {A B} (m : M A) (k : A -> M B) (w w' : World) (a : A) :
  m w = Done a w' -> bind m k w = k a w'.
Proof. intros H. unfold bind. now rewrite H. Qed.

(** A channel with no callback registered does not react to a string
    message, whatever it says. *)
Lemma string_message_without_callbacks (s : string) (w : World) :
  publish_success_callback_ (this w) = None ->
  subscribe_success_callback_ (this w) = None ->
  failure_callback_ (this w) = None ->
  OnSignalingMessage (Some (string_message s)) w = Done tt w.
Proof.
  intros Hp Hs Hf. destruct w as [c e q t p]. destruct c. simpl in *. subst.
  unfold OnSignalingMessage, bind, get_this. simpl.
  destruct (String.eqb s "success"); [reflexivity|].
  destruct (String.eqb s "failure"); [|reflexivity].
  now rewrite andb_false_r.
Qed.

(** On a live channel a task over [weak_this] whose callback slot is empty
    does nothing. *)
Lemma late_task_is_no_op (task : Task) (w : World) :
  expired w = false ->
  publish_success_callback_ (this w) = None ->
  subscribe_success_callback_ (this w) = None ->
  failure_callback_ (this w) = None ->
  task = TaskPublishSuccess \/ task = TaskSubscribeSuccess \/ task = TaskServerFailure ->
  run_task task w = Done tt w.
Proof.
  intros He Hp Hs Hf Ht. destruct w as [c e q t p]. destruct c. simpl in *. subst.
  destruct Ht as [-> | [-> | ->]]; reflexivity.
Qed.

Lemma late_tasks_are_no_ops (tasks : list Task) (w : World) :
  expired w = false ->
  publish_success_callback_ (this w) = None ->
  subscribe_success_callback_ (this w) = None ->
  failure_callback_ (this w) = None ->
  (forall task, In task tasks ->
     task = TaskPublishSuccess \/ task = TaskSubscribeSuccess \/
     task = TaskServerFailure) ->
  run_tasks tasks w = Done tt w.
Proof.
  intros He Hp Hs Hf. induction tasks as [|task tasks IH]; intros Hall; simpl.
  - reflexivity.
  - rewrite (bind_Done _ _ w w tt).
    + apply IH. intros t Ht. apply Hall. now right.
    + apply late_task_is_no_op; auto. apply Hall. now left.
Qed.

Lemma success_acks_post (n : nat) (w : World) (callback : SuccessCallback) :
  publish_success_callback_ (this w) = Some callback ->
  times n (OnSignalingMessage (Some (string_message "success"))) w =
  Done tt (with_event_queue_ (event_queue_ w ++ repeat TaskPublishSuccess n) w).
Proof.
  revert w. induction n as [|n IH]; intros w Hp; simpl.
  - unfold ret. now rewrite app_nil_r, with_event_queue_same.
  - rewrite (bind_Done _ _ w
               (with_event_queue_ (event_queue_ w ++ [TaskPublishSuccess]) w) tt).
    + rewrite IH by exact Hp. destruct w as [c e q t p]. simpl.
      unfold with_event_queue_. simpl. now rewrite <- app_assoc.
    + unfold OnSignalingMessage, bind, get_this. simpl. rewrite Hp. reflexivity.
Qed.

(** X5.  However many "success" acknowledgements arrive for a pending
    publish before the task queue runs, the publish callback is invoked
    once, with the session id; the other tasks find the slots empty.  After
    that the channel ignores every further string acknowledgement. *)
Theorem publish_success_fires_once_under_duplicates :
  forall (n : nat) (w : World) (callback : SuccessCallback),
    publish_success_callback_ (this w) = Some callback ->
    event_queue_ w = [] ->
    expired w = false ->
    let w' :=
      with_trace (trace w ++ [InvokeSuccess callback (session_id_ (this w))])
        (with_this (callbacks_cleared (this w)) w) in
    (times (S n) (OnSignalingMessage (Some (string_message "success"))) ;;
     run_event_queue) w = Done tt w' /\
    forall s, OnSignalingMessage (Some (string_message s)) w' = Done tt w'.
Proof.
  intros n w callback Hp Hq He w'. split.
  - rewrite (bind_Done _ _ _ _ _ (success_acks_post (S n) w callback Hp)).
    rewrite Hq. unfold run_event_queue. simpl event_queue_. simpl run_tasks.
    rewrite (bind_Done _ _ _ w' tt).
    + apply late_tasks_are_no_ops; try reflexivity.
      * subst w'. simpl. exact He.
      * intros task Ht. apply repeat_spec in Ht. now left.
    + subst w'. destruct w as [c e q t p]. destruct c. simpl in *. subst.
      reflexivity.
  - intros s. apply string_message_without_callbacks; reflexivity.
Qed.

Lemma publish_success_fires_once_under_duplicates_witness :
  publish_success_callback_ (this (publishing_world sample_platform)) = Some 1 /\
  success_calls
    (trace
       (final_world
          ((times 3 (OnSignalingMessage (Some (string_message "success"))) ;;
            run_event_queue) (publishing_world sample_platform)))) =
  [(1, "session-3")].
Proof.
  split; [reflexivity|].
  rewrite (proj1 (publish_success_fires_once_under_duplicates
                    2 (publishing_world sample_platform) 1 eq_refl eq_refl eq_refl)).
  reflexivity.
Defined.

(** X6.  A "failure" acknowledgement is ignored when the session is
    connected or no failure callback is registered.  Otherwise, once the
    queue runs, the failure callback is invoked once with the server-error
    message and all three slots are cleared, so that a "success" arriving
    later fires nothing. *)
Theorem failure_acknowledgement :
  forall (w : World),
    let failure := OnSignalingMessage (Some (string_message "failure")) in
    (connected_ (this w) = true \/ failure_callback_ (this w) = None ->
     failure w = Done tt w) /\
    (forall callback,
        connected_ (this w) = false ->
        failure_callback_ (this w) = Some callback ->
        event_queue_ w = [] ->
        expired w = false ->
        let w' :=
          with_trace
            (trace w ++
             [InvokeFailure callback
                "Server internal error during connection establishment."])
            (with_this (callbacks_cleared (this w)) w) in
        (failure ;; run_event_queue) w = Done tt w' /\
        (OnSignalingMessage (Some (string_message "success")) ;; run_event_queue) w'
        = Done tt w').
Proof.
  intros w failure. subst failure. split.
  - intros H. unfold OnSignalingMessage, bind, get_this. simpl.
    destruct H as [H|H]; rewrite H; simpl; [reflexivity|].
    now rewrite andb_false_r.
  - intros callback Hc Hf Hq He w'. subst w'.
    destruct w as [c e q t p]. destruct c. simpl in *. subst. split; reflexivity.
Qed.

Lemma failure_acknowledgement_witness :
  connected_ (this (subscribing_world sample_platform)) = false /\
  failure_callback_ (this (subscribing_world sample_platform)) = Some 2 /\
  trace
    (final_world
       ((OnSignalingMessage (Some (string_message "failure")) ;;
         run_event_queue) (subscribing_world sample_platform))) =
  (trace (subscribing_world sample_platform) ++
   [InvokeFailure 2 "Server internal error during connection establishment."])%list.
Proof.
  split; [reflexivity|]. split; [reflexivity|].
  destruct (proj2 (failure_acknowledgement (subscribing_world sample_platform))
              2 eq_refl eq_refl eq_refl eq_refl) as [H _].
  rewrite H. reflexivity.
Defined.


(** ** ICE restart *)

Lemma IceRestart_deferred (w : World) :
  PeerConnectionInterface.is_stable (signaling_state_ (this w)) = false ->
  IceRestart w = Done tt (with_this (set_ice_restart_needed_ true (this w)) w).
Proof.
  intros Hs. unfold IceRestart, SignalingState, bind, get_this, ret. simpl.
  rewrite Hs. reflexivity.
Qed.

Lemma IceRestart_requests_deferred (n : nat) (w : World) :
  PeerConnectionInterface.is_stable (signaling_state_ (this w)) = false ->
  times (S n) IceRestart w =
  Done tt (with_this (set_ice_restart_needed_ true (this w)) w).
Proof.
  revert w. induction n as [|n IH]; intros w Hs.
  - simpl. rewrite (bind_Done _ _ _ _ _ (IceRestart_deferred w Hs)). reflexivity.
  - change (times (S (S n)) IceRestart) with (IceRestart ;; times (S n) IceRestart).
    rewrite (bind_Done _ _ _ _ _ (IceRestart_deferred w Hs)).
    rewrite IH by (destruct w as [c e q t p]; destruct c; exact Hs).
    destruct w as [c e q t p]; destruct c; reflexivity.
Qed.

(** X8.  [IceRestart] in the stable state requests an offer at once and
    leaves the flag alone.  Outside the stable state any number of requests
    collapse into one pending restart: the next change to stable empties
    the candidate queue and requests one offer, and a further change to
    stable requests none. *)
Theorem ice_restart_requests_coalesce :
  forall (n : nat) (w : World),
    peer_connection_ (this w) <> None ->
    let offer := PcCreateOffer (negb (field_trial_OWT_IceUnbundle (platform w))) in
    (PeerConnectionInterface.is_stable (signaling_state_ (this w)) = true ->
     IceRestart w = Done tt (with_trace (trace w ++ [offer]) w)) /\
    (PeerConnectionInterface.is_stable (signaling_state_ (this w)) = false ->
     (times (S n) IceRestart ;;
      OnSignalingChange PeerConnectionInterface.kStable ;;
      OnSignalingChange PeerConnectionInterface.kStable) w =
     Done tt
       (with_trace (trace w ++ [offer])
          (with_this
             (set_ice_candidates_ []
                (set_ice_restart_needed_ false
                   (set_signaling_state_ PeerConnectionInterface.kStable (this w))))
             w))).
Proof.
  intros n w Hpc offer. subst offer. split; intros Hs.
  - destruct w as [c e q t p]. destruct c. simpl in *.
    destruct peer_connection_0; [|congruence].
    unfold IceRestart, DoIceRestart, SignalingState, CreateOffer, RTC_DCHECK, bind,
      get_this, get_platform, deref, call, ret. simpl. rewrite Hs. simpl.
    rewrite Hs. reflexivity.
  - rewrite (bind_Done _ _ _ _ _ (IceRestart_requests_deferred n w Hs)).
    destruct w as [c e q t p]. destruct c. simpl in *.
    destruct peer_connection_0; [|congruence].
    unfold bind. rewrite OnSignalingChange_stable_restart;
      [|reflexivity|discriminate].
    rewrite OnSignalingChange_stable_drain by reflexivity.
    simpl. unfold with_trace, with_this. simpl. now rewrite app_nil_r.
Qed.

Lemma ice_restart_requests_coalesce_witness :
  peer_connection_ (this queued_world) <> None /\
  PeerConnectionInterface.is_stable (signaling_state_ (this queued_world)) = false /\
  offers
    (trace
       (final_world
          ((times 3 IceRestart ;;
            OnSignalingChange PeerConnectionInterface.kStable ;;
            OnSignalingChange PeerConnectionInterface.kStable) queued_world))) = 1 /\
  transmitted
    (trace
       (final_world
          ((times 3 IceRestart ;;
            OnSignalingChange PeerConnectionInterface.kStable ;;
            OnSignalingChange PeerConnectionInterface.kStable) queued_world))) = [].
Proof.
  assert (Hpc : peer_connection_ (this queued_world) <> None) by discriminate.
  split; [exact Hpc|]. split; [reflexivity|].
  rewrite (proj2 (ice_restart_requests_coalesce 2 queued_world Hpc) eq_refl).
  split; reflexivity.
Defined.

(** ** Runs with restart requests *)

Lemma subseq_refl {A} (l : list A) : subseq l l.
Proof. induction l; [apply subseq_nil | now apply subseq_keep]. Qed.

Lemma subseq_nil_l {A} (l : list A) : subseq [] l.
Proof. induction l; [apply subseq_nil | now apply subseq_skip]. Qed.

Lemma subseq_trans {A} (l1 l2 l3 : list A) :
  subseq l1 l2 -> subseq l2 l3 -> subseq l1 l3.
Proof.
  intros H12 H23. revert l1 H12.
  induction H23 as [|x l2 l3 H IH|x l2 l3 H IH]; intros l1 H12.
  - exact H12.
  - constructor. now apply IH.
  - inversion H12; subst.
    + apply subseq_skip. now apply IH.
    + apply subseq_keep. now apply IH.
Qed.

Lemma subseq_app_head {A} (c l1 l2 : list A) :
  subseq l1 l2 -> subseq (c ++ l1) (c ++ l2).
Proof. intros H. induction c; simpl; [assumption | now apply subseq_keep]. Qed.

Lemma subseq_app_tail {A} (c l1 l2 : list A) :
  subseq l1 l2 -> subseq (l1 ++ c) (l2 ++ c).
Proof.
  induction 1; simpl;
    [apply subseq_refl | now apply subseq_skip | now apply subseq_keep].
Qed.

Lemma generated_in_cons (e : ChannelEvent) (events : list ChannelEvent) :
  generated_in (e :: events) = (generated_in [e] ++ generated_in events)%list.
Proof. destruct e as [[candidate|new_state]|]; reflexivity. Qed.

Lemma handle_step (e : ChannelEvent) (w : World) :
  open_buffer_invariant w ->
  exists w' sent,
    handle e w = Done tt w' /\
    open_buffer_invariant w' /\
    session_id_ (this w') = session_id_ (this w) /\
    transmitted (trace w') = (transmitted (trace w) ++ sent)%list /\
    subseq (sent ++ ice_candidates_ (this w'))
           (ice_candidates_ (this w) ++
            map (candidate_message (session_id_ (this w))) (generated_in [e])).
Proof.
  unfold open_buffer_invariant. intros [Hqueue Hpc].
  destruct e as [[candidate|new_state]|]; simpl handle.
  - destruct (PeerConnectionInterface.is_stable (signaling_state_ (this w))) eqn:Hs.
    + rewrite (OnIceCandidate_stable _ _ Hs). specialize (Hqueue eq_refl).
      eexists. exists [candidate_message (session_id_ (this w)) candidate].
      split; [reflexivity|].
      destruct w as [c ex q t p]. destruct c. simpl in *. subst.
      split; [split; [reflexivity | assumption]|].
      split; [reflexivity|]. split; [apply transmitted_app | apply subseq_refl].
    + rewrite (OnIceCandidate_not_stable _ _ Hs). eexists. exists [].
      split; [reflexivity|].
      destruct w as [c ex q t p]. destruct c. simpl in *.
      split; [split; [intros Hs'; congruence | assumption]|].
      split; [reflexivity|]. split; [now rewrite app_nil_r | apply subseq_refl].
  - destruct (PeerConnectionInterface.is_stable new_state) eqn:Hn.
    + destruct new_state; try discriminate.
      destruct (ice_restart_needed_ (this w)) eqn:Hr.
      * rewrite (OnSignalingChange_stable_restart _ Hr Hpc).
        eexists. exists []. split; [reflexivity|].
        destruct w as [c ex q t p]. destruct c. simpl in *.
        split; [split; [reflexivity | assumption]|].
        split; [reflexivity|].
        split; [rewrite transmitted_app; reflexivity | apply subseq_nil_l].
      * rewrite (OnSignalingChange_stable_drain _ Hr).
        eexists. exists (ice_candidates_ (this w)). split; [reflexivity|].
        destruct w as [c ex q t p]. destruct c. simpl in *.
        split; [split; [reflexivity | assumption]|].
        split; [reflexivity|].
        split; [now rewrite transmitted_app, transmitted_SendSdp | apply subseq_refl].
    + rewrite (OnSignalingChange_not_stable _ _ Hn). eexists. exists [].
      split; [reflexivity|].
      destruct w as [c ex q t p]. destruct c. simpl in *.
      split; [split; [intros Hs'; congruence | assumption]|].
      split; [reflexivity|].
      split; [now rewrite app_nil_r | rewrite app_nil_r; apply subseq_refl].
  - destruct (PeerConnectionInterface.is_stable (signaling_state_ (this w))) eqn:Hs.
    + destruct w as [c ex q t p]. destruct c. simpl in *.
      destruct peer_connection_0 as [pc|]; [|congruence].
      eexists. exists []. split.
      * unfold IceRestart, DoIceRestart, SignalingState, CreateOffer, RTC_DCHECK,
          bind, get_this, get_platform, deref, call, ret. simpl. rewrite Hs. simpl.
        rewrite Hs. reflexivity.
      * simpl. split; [split; [intros _; now apply Hqueue | discriminate]|].
        split; [reflexivity|].
        split; [rewrite transmitted_app; reflexivity
               | rewrite app_nil_r; apply subseq_refl].
    + rewrite (IceRestart_deferred _ Hs). eexists. exists []. split; [reflexivity|].
      destruct w as [c ex q t p]. destruct c. simpl in *.
      split; [split; [intros Hs'; congruence | assumption]|].
      split; [reflexivity|].
      split; [now rewrite app_nil_r | rewrite app_nil_r; apply subseq_refl].
Qed.

(** X9.  Over any run of candidate notifications, signaling-state changes
    and restart requests, starting with nothing queued while stable and an
    open peer connection, the run completes, and the candidate messages
    sent, followed by those still queued, are the generated candidates with
    some left out: a restart may drop queued candidates, but nothing is sent
    twice or out of generation order.  Nothing is queued whenever the run
    ends in the stable state. *)
Theorem restarts_drop_but_never_reorder :
  forall (events : list ChannelEvent) (w : World),
    open_buffer_invariant w ->
    exists w' sent,
      handle_all events w = Done tt w' /\
      open_buffer_invariant w' /\
      transmitted (trace w') = (transmitted (trace w) ++ sent)%list /\
      subseq (sent ++ ice_candidates_ (this w'))
             (ice_candidates_ (this w) ++
              map (candidate_message (session_id_ (this w))) (generated_in events)).
Proof.
  induction events as [|e events IH]; intros w Hinv.
  - exists w, []. simpl. split; [reflexivity|]. split; [assumption|].
    split; [now rewrite app_nil_r|]. rewrite app_nil_r. apply subseq_refl.
  - destruct (handle_step e w Hinv) as [w1 [sent1 [Hrun1 [Hinv1 [Hid1 [Ht1 Hs1]]]]]].
    destruct (IH w1 Hinv1) as [w2 [sent2 [Hrun2 [Hinv2 [Ht2 Hs2]]]]].
    exists w2, (sent1 ++ sent2)%list. unfold handle_all in *. simpl for_each.
    rewrite (bind_Done _ _ _ _ _ Hrun1). split; [exact Hrun2|].
    split; [exact Hinv2|]. split; [now rewrite Ht2, Ht1, app_assoc|].
    rewrite Hid1 in Hs2. rewrite generated_in_cons, map_app, app_assoc.
    rewrite <- app_assoc.
    eapply subseq_trans.
    + apply subseq_app_head. exact Hs2.
    + rewrite app_assoc. apply subseq_app_tail. exact Hs1.
Qed.

Lemma restarts_drop_but_never_reorder_witness :
  open_buffer_invariant (idle_world sample_platform) /\
  exists w',
    handle_all
      [Transport (SignalingChanged PeerConnectionInterface.kHaveLocalOffer);
       Transport (CandidateGenerated candidate_A);
       Transport (CandidateGenerated candidate_B);
       RestartRequested;
       Transport (SignalingChanged PeerConnectionInterface.kStable);
       Transport (CandidateGenerated candidate_C);
       Transport (CandidateGenerated candidate_D)]
      (idle_world sample_platform) = Done tt w' /\
    transmitted (trace w') = map (candidate_message "") [candidate_C; candidate_D].
Proof.
  assert (Hinv : open_buffer_invariant (idle_world sample_platform)).
  { split; [reflexivity | discriminate]. }
  split; [exact Hinv|].
  destruct (restarts_drop_but_never_reorder
              [Transport (SignalingChanged PeerConnectionInterface.kHaveLocalOffer);
               Transport (CandidateGenerated candidate_A);
               Transport (CandidateGenerated candidate_B);
               RestartRequested;
               Transport (SignalingChanged PeerConnectionInterface.kStable);
               Transport (CandidateGenerated candidate_C);
               Transport (CandidateGenerated candidate_D)]
              (idle_world sample_platform) Hinv)
    as [w' [sent [Hrun _]]].
  exists w'. split; [exact Hrun|].
  vm_compute in Hrun. injection Hrun as <-. reflexivity.
Defined.

(** ** Observers *)

Lemma observer_registered (observer : Observer) (l : list Observer) :
  existsb (Nat.eqb observer) l = true <-> In observer l.
Proof.
  rewrite existsb_exists. split.
  - intros [x [Hin E]]. apply Nat.eqb_eq in E. now subst.
  - intros Hin. exists observer. split; [assumption | apply Nat.eqb_refl].
Qed.

(** X10.  [AddObserver] keeps the observer list free of duplicates: a new
    observer is appended, one already registered is left where it is, and
    registering the same observer again changes nothing. *)
Theorem AddObserver_keeps_observers_distinct :
  forall (w : World) (observer : Observer),
    NoDup (observers_ (this w)) ->
    exists w',
      AddObserver observer w = Done tt w' /\
      NoDup (observers_ (this w')) /\
      (forall x, In x (observers_ (this w')) <->
                 x = observer \/ In x (observers_ (this w))) /\
      (In observer (observers_ (this w)) -> w' = w) /\
      AddObserver observer w' = Done tt w'.
Proof.
  intros w observer Hnd. unfold AddObserver, bind, get_this.
  destruct (existsb (Nat.eqb observer) (observers_ (this w))) eqn:E.
  - apply observer_registered in E. exists w. split; [reflexivity|].
    split; [assumption|]. split; [|split; [reflexivity|]].
    + intros x. split; [now right | intros [->|H]; assumption].
    + simpl. apply observer_registered in E. now rewrite E.
  - assert (Hnot : ~ In observer (observers_ (this w))).
    { intros Hin. apply observer_registered in Hin. congruence. }
    eexists. split; [reflexivity|].
    destruct w as [c e q t p]. destruct c. simpl in *.
    split; [|split; [|split]].
    + apply NoDup_app; [assumption | constructor; [intros []|constructor] |].
      intros x Hx [->|[]]. contradiction.
    + intros x. rewrite in_app_iff. simpl. intuition.
    + intros Hin. contradiction.
    + assert (Hin : existsb (Nat.eqb observer) (observers_0 ++ [observer]) = true).
      { apply observer_registered. apply in_app_iff. right. now left. }
      unfold update. simpl. rewrite Hin. reflexivity.
Qed.

Lemma AddObserver_keeps_observers_distinct_witness :
  NoDup (observers_ (this (idle_world sample_platform))) /\
  observers_
    (this (final_world
             ((AddObserver 7 ;; AddObserver 8 ;; AddObserver 7)
                (idle_world sample_platform)))) = [7; 8].
Proof.
  assert (H : NoDup (observers_ (this (idle_world sample_platform)))) by constructor.
  split; [exact H|].
  destruct (AddObserver_keeps_observers_distinct (idle_world sample_platform) 7 H)
    as [w' [Hrun _]].
  unfold bind at 1. rewrite Hrun. vm_compute in Hrun. injection Hrun as <-.
  reflexivity.
Defined.

Lemma notifications_app (t1 t2 : list Effect) :
  notifications (t1 ++ t2) = (notifications t1 ++ notifications t2)%list.
Proof.
  induction t1 as [|e t1 IH]; simpl; [reflexivity|].
  destruct e; simpl; now rewrite ?IH.
Qed.

Lemma notifications_of_observers (error_message : string) (l : list Observer) :
  notifications (map (fun its => ObserverOnStreamError its None error_message) l) =
  map (fun its => (its, error_message)) l.
Proof. induction l as [|o l IH]; simpl; [reflexivity | now rewrite IH]. Qed.

(** X11.  [OnStreamError] calls every registered observer exactly once, in
    registration order and with the error message given, whatever teardown
    follows and however it ends. *)
Theorem OnStreamError_notifies_each_observer_once :
  forall (error_message : string) (w : World),
    notifications (trace (final_world (OnStreamError error_message w))) =
    (notifications (trace w) ++
     map (fun its => (its, error_message)) (observers_ (this w)))%list.
Proof.
  intros error_message w.
  destruct w as [c e q t p]. destruct c. destruct p as [dcheck ft ts i64 cs].
  unfold OnStreamError. unfold bind at 1. unfold get_this at 1. simpl.
  unfold bind at 1. rewrite for_each_call. simpl.
  unfold Unpublish, Unsubscribe, GetSessionId, ClosePeerConnection, RunInEventQueue,
    RTC_DCHECK, post_failure, bind, get_this, get_platform, update, call, ret, fatal.
  simpl.
  destruct published_stream_0, subscribed_stream_0, peer_connection_0,
    subscribe_success_callback_0, dcheck; simpl;
    rewrite ?String.eqb_refl; simpl; rewrite ?String.eqb_refl; simpl;
    rewrite ?notifications_app, notifications_of_observers; simpl;
    rewrite ?app_nil_r; reflexivity.
Qed.

(** ** Removed candidates and connection state *)



Lemma set_connected_same (c : Channel) :
  set_connected_ (connected_ c) c = c.
Proof. now destruct c. Qed.

Lemma ice_failure_before_connection (w : World) :
  connected_ (this w) = false ->
  OnIceConnectionChange PeerConnectionInterface.kIceConnectionFailed w = Done tt w.
Proof.
  intros Hc. unfold OnIceConnectionChange, bind, get_this, update, ret. simpl.
  rewrite Hc. simpl. rewrite <- Hc at 1. now rewrite set_connected_same, with_this_same.
Qed.

(** X13.  An ICE failure on a channel that is not connected is silent: no
    observer is called and nothing is torn down.  After any ICE failure
    that returns, the channel is not connected, so a repeated failure does
    nothing.  Once ICE is connected or completed, a "failure"
    acknowledgement from the server is ignored. *)
Theorem ice_failure_is_reported_once :
  forall (w : World),
    let failed :=
      OnIceConnectionChange PeerConnectionInterface.kIceConnectionFailed in
    (connected_ (this w) = false -> failed w = Done tt w) /\
    (forall w1, failed w = Done tt w1 -> failed w1 = Done tt w1) /\
    (forall state,
        state = PeerConnectionInterface.kIceConnectionConnected \/
        state = PeerConnectionInterface.kIceConnectionCompleted ->
        (OnIceConnectionChange state ;;
         OnSignalingMessage (Some (string_message "failure"))) w =
        Done tt (with_this (set_connected_ true (this w)) w)).
Proof.
  intros w failed. subst failed. split; [|split].
  - apply ice_failure_before_connection.
  - intros w1 Hrun. apply ice_failure_before_connection.
    unfold OnIceConnectionChange, bind, get_this, update in Hrun. simpl in Hrun.
    destruct (connected_ (this w)).
    + destruct (OnStreamError _ w) as [[] w0|]; [|discriminate].
      injection Hrun as <-. reflexivity.
    + simpl in Hrun. injection Hrun as <-. reflexivity.
  - intros state [-> | ->]; destruct w as [c e q t p]; destruct c; reflexivity.
Qed.

Lemma ice_failure_is_reported_once_witness :
  let connected :=
    final_world
      (OnIceConnectionChange PeerConnectionInterface.kIceConnectionConnected
         (publishing_world sample_platform)) in
  let failed :=
    final_world
      (OnIceConnectionChange PeerConnectionInterface.kIceConnectionFailed connected) in
  OnIceConnectionChange PeerConnectionInterface.kIceConnectionFailed connected =
    Done tt failed /\
  notifications (trace failed) =
    [(7, "Stream ICE connection failed."); (8, "Stream ICE connection failed.")] /\
  OnIceConnectionChange PeerConnectionInterface.kIceConnectionFailed failed =
    Done tt failed.
Proof.
  intros connected failed.
  assert (Hrun : OnIceConnectionChange PeerConnectionInterface.kIceConnectionFailed
                   connected = Done tt failed) by (vm_compute; reflexivity).
  split; [exact Hrun|]. split; [vm_compute; reflexivity|].
  exact (proj1 (proj2 (ice_failure_is_reported_once connected)) failed Hrun).
Defined.

(** ** Statistics after teardown *)

(** X14.  Without a published or subscribed stream [GetConnectionStats]
    reports the fault and does not touch the peer connection, open or not.
    [Unpublish] closes the peer connection but keeps the published stream,
    so a [GetConnectionStats] that follows it passes the stream test and
    dereferences the null [peer_connection_]. *)
Theorem GetConnectionStats_needs_stream_and_connection :
  forall (w : World) (on_success : option StatsCallback)
         (on_failure : option FailureCallback),
    (published_stream_ (this w) = None ->
     subscribed_stream_ (this w) = None ->
     GetConnectionStats on_success on_failure w =
     Done tt (with_event_queue_
                (event_queue_ w ++
                 failure_report on_failure "No stream associated with the session")
                w)) /\
    (forall s,
        published_stream_ (this w) = Some s ->
        exists w1,
          Unpublish (session_id_ (this w)) None None w = Done tt w1 /\
          published_stream_ (this w1) = Some s /\
          peer_connection_ (this w1) = None /\
          GetConnectionStats on_success on_failure w1 = Fatal NullDereference w1).
Proof.
  intros w on_success on_failure. split.
  - intros Hp Hs. rewrite <- post_failure_run.
    unfold GetConnectionStats, bind, get_this. simpl. now rewrite Hp, Hs.
  - intros s Hp. destruct w as [c e q t p]. destruct c. simpl in *. subst.
    unfold Unpublish, GetSessionId, ClosePeerConnection, RunInEventQueue, bind,
      get_this, update, call, ret. simpl. rewrite String.eqb_refl. simpl.
    destruct peer_connection_0, subscribed_stream_0; eexists;
      (split; [reflexivity|]); (split; [reflexivity|]); (split; [reflexivity|]);
      cbv -[app]; reflexivity.
Qed.

Lemma GetConnectionStats_needs_stream_and_connection_witness :
  published_stream_ (this (publishing_world sample_platform)) = Some local_stream /\
  (Unpublish "session-3" None None ;; GetConnectionStats (Some 5) (Some 6))
    (publishing_world sample_platform) =
  Fatal NullDereference
    (final_world (Unpublish "session-3" None None (publishing_world sample_platform))).
Proof.
  split; [reflexivity|].
  destruct (proj2 (GetConnectionStats_needs_stream_and_connection
                     (publishing_world sample_platform) (Some 5) (Some 6))
              local_stream eq_refl) as [w1 [Hrun [_ [_ Hstats]]]].
  change (session_id_ (this (publishing_world sample_platform)))
    with "session-3" in Hrun.
  unfold bind. rewrite Hrun. exact Hstats.
Defined.

(** ** Publish *)

Lemma live_track_exists (l : list MediaStreamTrack.t) :
  existsb MediaStreamTrack.is_live l = true -> Nat.eqb (List.length l) 0 = false.
Proof. destruct l; [discriminate | reflexivity]. Qed.

(** [Publish] on a stream that has a media handle. *)
Lemma Publish_with_media_handle :
  forall (w : World) (s : LocalStream.t) (ms : MediaStreamInterface.t)
         (on_success : option SuccessCallback) (on_failure : option FailureCallback),
    LocalStream.MediaStream s = Some ms ->
    Publish (Some s) on_success on_failure w =
    if has_live_track ms then
      Done tt
        (with_trace
           (trace w ++
            [SendInitializationMessage
               (publish_options s
                  (List.length (MediaStreamInterface.GetAudioTracks ms))
                  (List.length (MediaStreamInterface.GetVideoTracks ms)))
               (MediaStreamInterface.id ms) "" (PublishAck s) on_failure])
           (with_this (publishing s on_success on_failure (this w)) w))
    else
      Done tt
        (with_event_queue_
           (event_queue_ w ++ failure_report on_failure "Cannot publish ended stream.")
           (with_this (set_published_stream_ (Some s) (this w)) w)).
Proof.
  intros w s ms on_success on_failure Hms.
  destruct w as [c e q t p].
  unfold Publish, SendPublishMessage, IsMediaStreamEnded, CheckNullPointer,
    RTC_CHECK, deref, bind, update, call, ret, fatal, has_live_track.
  simpl. rewrite Hms. simpl.
  destruct (existsb MediaStreamTrack.is_live (MediaStreamInterface.GetAudioTracks ms))
    eqn:Ha; simpl.
  - rewrite (live_track_exists _ Ha). simpl. rewrite ?Hms. reflexivity.
  - destruct (existsb MediaStreamTrack.is_live (MediaStreamInterface.GetVideoTracks ms))
      eqn:Hv; simpl.
    + rewrite (live_track_exists _ Hv), andb_false_r. simpl. rewrite ?Hms. reflexivity.
    + rewrite post_failure_run. reflexivity.
Qed.

(** X15.  For a stream with a media handle, [Publish] is decided by one
    test: if some audio or video track is live, the callbacks are stored,
    both transceiver directions become send-only and one initialization
    message goes out under the media stream's id; otherwise only the fault
    "Cannot publish ended stream." is reported.  A stream with no tracks at
    all falls in the second case. *)
Theorem Publish_accepts_streams_with_a_live_track :
  forall (w : World) (s : LocalStream.t) (ms : MediaStreamInterface.t)
         (on_success : option SuccessCallback) (on_failure : option FailureCallback),
    LocalStream.MediaStream s = Some ms ->
    Publish (Some s) on_success on_failure w =
    if has_live_track ms then
      Done tt
        (with_trace
           (trace w ++
            [SendInitializationMessage
               (publish_options s
                  (List.length (MediaStreamInterface.GetAudioTracks ms))
                  (List.length (MediaStreamInterface.GetVideoTracks ms)))
               (MediaStreamInterface.id ms) "" (PublishAck s) on_failure])
           (with_this (publishing s on_success on_failure (this w)) w))
    else
      Done tt
        (with_event_queue_
           (event_queue_ w ++ failure_report on_failure "Cannot publish ended stream.")
           (with_this (set_published_stream_ (Some s) (this w)) w)).
Proof. exact Publish_with_media_handle. Qed.

Lemma Publish_accepts_streams_with_a_live_track_witness :
  LocalStream.MediaStream local_stream = Some sample_media /\
  has_live_track sample_media = true /\
  publish_success_callback_
    (this (final_world (Publish (Some local_stream) (Some 1) (Some 2)
                          (idle_world sample_platform)))) = Some 1.
Proof.
  split; [reflexivity|]. split; [reflexivity|].
  rewrite (Publish_accepts_streams_with_a_live_track
             (idle_world sample_platform) local_stream sample_media
             (Some 1) (Some 2) eq_refl).
  reflexivity.
Defined.


(** X16.  [Publish] posts at most one report, and it is either the null
    report or "Cannot publish ended stream."; the fault "Cannot publish
    media stream without any tracks." is never reported, a stream without
    tracks being refused as ended. *)
Theorem Publish_never_reports_missing_tracks :
  forall (w : World) (stream : option LocalStream.t)
         (on_success : option SuccessCallback) (on_failure : option FailureCallback),
    exists posted,
      event_queue_ (final_world (Publish stream on_success on_failure w)) =
      (event_queue_ w ++ posted)%list /\
      (posted = [] \/
       posted = failure_report on_failure "Nullptr is not allowed." \/
       posted = failure_report on_failure "Cannot publish ended stream.") /\
      forall f,
        ~ In (TaskReportFailure f "Cannot publish media stream without any tracks.")
             posted.
Proof.
  intros w stream on_success on_failure.
  assert (Hnot : forall what f,
             what <> "Cannot publish media stream without any tracks." ->
             ~ In (TaskReportFailure f
                     "Cannot publish media stream without any tracks.")
                  (failure_report on_failure what)).
  { intros what f Hw. destruct on_failure; simpl; [|tauto].
    intros [H|[]]. injection H as _ H. congruence. }
  destruct stream as [s|].
  - destruct (LocalStream.MediaStream s) as [ms|] eqn:Hms.
    + rewrite (Publish_with_media_handle _ _ _ _ _ Hms).
      destruct (has_live_track ms); simpl.
      * exists []. rewrite app_nil_r. split; [reflexivity|]. split; [now left|].
        intros f [].
      * eexists. split; [reflexivity|]. split; [now right; right|].
        intros f. apply Hnot. discriminate.
    + rewrite (Publish_null_media_handle _ _ _ _ Hms). simpl.
      exists (null_report on_failure). split; [reflexivity|].
      split; [right; left; now destruct on_failure|].
      intros f. destruct on_failure; simpl; [|tauto].
      intros [H|[]]. discriminate H.
  - rewrite Publish_null_stream. simpl.
    exists (null_report on_failure). split; [reflexivity|].
    split; [right; left; now destruct on_failure|].
    intros f. destruct on_failure; simpl; [|tauto].
    intros [H|[]]. discriminate H.
Qed.

(** ** Subscribe *)

(** [Subscribe] on a non-null stream. *)
Lemma Subscribe_on_stream (w : World) (s : RemoteStream.t) (o : SubscribeOptions.t)
  (on_success : option SuccessCallback) (on_failure : option FailureCallback) :
  Subscribe (Some s) o on_success on_failure w =
  if SubOptionAllowed o (RemoteStream.Settings s) (RemoteStream.Capabilities s) then
    Done tt
      (with_trace
         (trace w ++ receive_transceivers s o ++
          [SendInitializationMessage
             (subscribe_options_message (platform w) s o
                (if audio_wanted s o then 1 else 0)
                (if video_wanted s o then 1 else 0))
             "" (RemoteStream.Id s) SubscribeAck on_failure])
         (with_event_queue_
            (event_queue_ w ++
             (if is_some (subscribe_success_callback_ (this w))
              then failure_report on_failure "Subscribing this stream." else []))
            (with_this (subscribing s on_success on_failure (this w)) w)))
  else
    Done tt
      (with_event_queue_
         (event_queue_ w ++ failure_report on_failure "Unsupported subscribe option.")
         w).
Proof.
  unfold Subscribe. unfold bind at 1. simpl.
  destruct (SubOptionAllowed o (RemoteStream.Settings s) (RemoteStream.Capabilities s));
    simpl; [|apply post_failure_run].
  destruct w as [c e q t p]. destruct c.
  unfold receive_transceivers, audio_wanted, video_wanted, CheckNullPointer, bind,
    get_this, get_platform, update, call, ret. simpl.
  destruct subscribe_success_callback_0, on_failure,
    (RemoteStream.has_audio_ s &&
     negb (AudioSubscriptionConstraints.disabled (SubscribeOptions.audio o))),
    (RemoteStream.has_video_ s &&
     negb (VideoSubscriptionConstraints.disabled (SubscribeOptions.video o)));
    simpl; rewrite ?app_nil_r; unfold with_trace, with_event_queue_, with_this; simpl;
    rewrite <- ?app_assoc; reflexivity.
Qed.

(** X17.  A subscribe whose options the stream cannot satisfy reports
    "Unsupported subscribe option." and leaves the channel as it was: no
    callback is stored, no transceiver added, no message sent, and the
    stream is not recorded.  A null stream is read through before any null
    check, so the call dies on the spot. *)
Theorem Subscribe_refuses_unsupported_options :
  forall (w : World) (s : RemoteStream.t) (o : SubscribeOptions.t)
         (on_success : option SuccessCallback) (on_failure : option FailureCallback),
    (SubOptionAllowed o (RemoteStream.Settings s) (RemoteStream.Capabilities s) = false ->
     Subscribe (Some s) o on_success on_failure w =
     Done tt
       (with_event_queue_
          (event_queue_ w ++ failure_report on_failure "Unsupported subscribe option.")
          w)) /\
    Subscribe None o on_success on_failure w = Fatal NullDereference w.
Proof.
  intros w s o on_success on_failure. split; [|reflexivity].
  intros H. rewrite Subscribe_on_stream, H. reflexivity.
Qed.

Lemma Subscribe_refuses_unsupported_options_witness :
  SubOptionAllowed (options_with_rid "2") (RemoteStream.Settings remote_stream)
    (RemoteStream.Capabilities remote_stream) = false /\
  Subscribe (Some remote_stream) (options_with_rid "2") (Some 1) (Some 2)
    (subscribing_world sample_platform) =
  Done tt
    (with_event_queue_ [TaskReportFailure 2 "Unsupported subscribe option."]
       (subscribing_world sample_platform)).
Proof.
  split; [reflexivity|].
  exact (proj1 (Subscribe_refuses_unsupported_options
                  (subscribing_world sample_platform) remote_stream
                  (options_with_rid "2") (Some 1) (Some 2)) eq_refl).
Defined.

(** X18.  A subscribe with satisfiable options on a channel with no
    subscribe in flight posts nothing, stores both callbacks, adds one
    receive-only transceiver for each kind that the stream has and the
    options do not disable, sends exactly one initialization message for
    the stream's id, and records the stream.  With both kinds disabled the
    message is still sent, with no transceiver added. *)
Theorem Subscribe_accepts_supported_options :
  forall (w : World) (s : RemoteStream.t) (o : SubscribeOptions.t)
         (on_success : option SuccessCallback) (on_failure : option FailureCallback),
    SubOptionAllowed o (RemoteStream.Settings s) (RemoteStream.Capabilities s) = true ->
    subscribe_success_callback_ (this w) = None ->
    Subscribe (Some s) o on_success on_failure w =
    Done tt
      (with_trace
         (trace w ++ receive_transceivers s o ++
          [SendInitializationMessage
             (subscribe_options_message (platform w) s o
                (if audio_wanted s o then 1 else 0)
                (if video_wanted s o then 1 else 0))
             "" (RemoteStream.Id s) SubscribeAck on_failure])
         (with_this (subscribing s on_success on_failure (this w)) w)).
Proof.
  intros w s o on_success on_failure Hok Hnone.
  rewrite Subscribe_on_stream, Hok, Hnone. simpl.
  rewrite app_nil_r. destruct w as [c e q t p]. reflexivity.
Qed.

Lemma Subscribe_accepts_supported_options_witness :
  SubOptionAllowed default_options (RemoteStream.Settings remote_stream)
    (RemoteStream.Capabilities remote_stream) = true /\
  subscribe_success_callback_ (this (idle_world sample_platform)) = None /\
  trace (final_world (Subscribe (Some remote_stream) default_options (Some 1) (Some 2)
                        (idle_world sample_platform))) =
  [AddTransceiver MEDIA_TYPE_AUDIO kRecvOnly;
   AddTransceiver MEDIA_TYPE_VIDEO kRecvOnly;
   SendInitializationMessage
     (subscribe_options_message sample_platform remote_stream default_options 1 1)
     "" "remote-1" SubscribeAck (Some 2)].
Proof.
  split; [reflexivity|]. split; [reflexivity|].
  rewrite (Subscribe_accepts_supported_options (idle_world sample_platform)
             remote_stream default_options (Some 1) (Some 2) eq_refl eq_refl).
  reflexivity.
Defined.

(** ** Payloads *)

(** X19.  In the publish payload and in the subscribe payload the tracks
    are the audio entry, if any, followed by the video entry, if any, and
    their mids count up from "0": a lone video track gets "0", a video track
    next to an audio track gets "1". *)
Theorem payload_mids_count_from_zero :
  forall (ls : LocalStream.t) (p : Platform) (rs : RemoteStream.t)
         (o : SubscribeOptions.t) (audio_track_count video_track_count : nat),
    let kinds :=
      ((if Nat.eqb audio_track_count 0 then [] else ["audio"]) ++
       (if Nat.eqb video_track_count 0 then [] else ["video"]))%list in
    let published := publish_options ls audio_track_count video_track_count in
    let subscribed :=
      subscribe_options_message p rs o audio_track_count video_track_count in
    map (string_member "type") (tracks_of published) = map Some kinds /\
    map (string_member "mid") (tracks_of published) =
      map Some (firstn (List.length kinds) ["0"; "1"]) /\
    map (string_member "type") (tracks_of subscribed) = map Some kinds /\
    map (string_member "mid") (tracks_of subscribed) =
      map Some (firstn (List.length kinds) ["0"; "1"]).
Proof.
  intros ls p rs o na nv kinds published subscribed.
  subst kinds published subscribed.
  destruct na as [|na], nv as [|nv]; repeat split; reflexivity.
Qed.

Lemma rid_search_find (rid : string) (l : list VideoPublicationSettings.t) :
  rid_search rid l = true ->
  exists layer,
    find (fun video_setting =>
            String.eqb (VideoPublicationSettings.rid video_setting) rid) l
    = Some layer /\
    VideoPublicationSettings.rid layer = rid.
Proof.
  induction l as [|a l IH]; simpl; [discriminate|].
  destruct (String.eqb_spec (VideoPublicationSettings.rid a) rid) as [E|NE].
  - intros _. exists a. split; [reflexivity | assumption].
  - exact IH.
Qed.

(** X20.  When a subscribe names a simulcast rid that the options check
    accepts, the video entry of the payload takes its "from" from the track
    id of the first layer of the publication settings with that rid and
    carries the rid as "simulcastRid"; with no rid, "from" is the stream's
    id and there is no "simulcastRid". *)
Theorem subscribe_payload_selects_layer_by_rid :
  forall (p : Platform) (s : RemoteStream.t) (o : SubscribeOptions.t)
         (audio_track_count : nat),
    let rid := VideoSubscriptionConstraints.rid (SubscribeOptions.video o) in
    let payload := subscribe_options_message p s o audio_track_count 1 in
    (rid <> "" ->
     SubOptionAllowed o (RemoteStream.Settings s) (RemoteStream.Capabilities s) = true ->
     exists layer track,
       find (fun video_setting =>
               String.eqb (VideoPublicationSettings.rid video_setting) rid)
            (PublicationSettings.video (RemoteStream.Settings s)) = Some layer /\
       track_of_type "video" payload = Some track /\
       string_member "from" track = Some (VideoPublicationSettings.track_id layer) /\
       string_member "simulcastRid" track = Some rid) /\
    (rid = "" ->
     exists track,
       track_of_type "video" payload = Some track /\
       string_member "from" track = Some (RemoteStream.Id s) /\
       string_member "simulcastRid" track = None).
Proof.
  intros p s o na rid payload. subst payload. split.
  - intros Hrid Hok.
    assert (Hsearch : rid_search rid
                        (PublicationSettings.video (RemoteStream.Settings s)) = true).
    { unfold SubOptionAllowed in Hok. fold rid in Hok.
      destruct (String.eqb_spec rid "") as [E|_]; [contradiction|]. exact Hok. }
    destruct (rid_search_find _ _ Hsearch) as [layer [Hfind Hlayer]].
    exists layer. unfold subscribe_options_message. fold rid. rewrite Hfind.
    destruct (String.eqb_spec rid "") as [E|_]; [contradiction|]. simpl negb.
    cbv iota.
    unfold track_of_type, tracks_of, string_member, member.
    destruct na as [|na]; simpl; eexists;
      (split; [reflexivity|]); (split; [reflexivity|]); split; reflexivity.
  - intros Hrid. unfold subscribe_options_message. fold rid. rewrite Hrid.
    unfold track_of_type, tracks_of, string_member, member.
    destruct na as [|na]; simpl; eexists;
      (split; [reflexivity|]); split; reflexivity.
Qed.

Lemma subscribe_payload_selects_layer_by_rid_witness :
  VideoSubscriptionConstraints.rid (SubscribeOptions.video (options_with_rid "1")) <> "" /\
  SubOptionAllowed (options_with_rid "1") (RemoteStream.Settings remote_stream)
    (RemoteStream.Capabilities remote_stream) = true /\
  exists track,
    track_of_type "video"
      (subscribe_options_message sample_platform remote_stream
         (options_with_rid "1") 1 1) = Some track /\
    string_member "from" track = Some "track-1".
Proof.
  assert (Hrid : VideoSubscriptionConstraints.rid
                   (SubscribeOptions.video (options_with_rid "1")) <> "")
    by discriminate.
  split; [exact Hrid|]. split; [reflexivity|].
  destruct (proj1 (subscribe_payload_selects_layer_by_rid sample_platform
                     remote_stream (options_with_rid "1") 1) Hrid eq_refl)
    as [layer [track [Hfind [Htrack [Hfrom _]]]]].
  exists track. split; [exact Htrack|].
  rewrite Hfrom. vm_compute in Hfind. injection Hfind as <-. reflexivity.
Defined.

Lemma map_find_map_set (key key' : string) (v : sio_message)
  (m : list (string * sio_message)) :
  map_find key' (map_set key v m) =
  if String.eqb key key' then Some v else map_find key' m.
Proof.
  induction m as [|[k x] m IH]; simpl.
  - reflexivity.
  - destruct (String.eqb_spec k key) as [->|Hk]; simpl.
    + destruct (String.eqb_spec key key'); reflexivity.
    + rewrite IH. destruct (String.eqb_spec k key') as [->|Hk'].
      * destruct (String.eqb_spec key key'); [congruence | reflexivity].
      * reflexivity.
Qed.

Lemma attributes_fold (attrs : list (string * string))
  (m0 : list (string * sio_message)) (k v : string) :
  NoDup (map fst attrs) ->
  (forall k', In k' (map fst attrs) -> map_find k' m0 = None) ->
  (map_find k
     (fold_left (fun m attr => map_set (fst attr) (string_message (snd attr)) m)
                attrs m0) = Some (string_message v) <->
   In (k, v) attrs \/ map_find k m0 = Some (string_message v)).
Proof.
  revert m0. induction attrs as [|[a b] attrs IH]; intros m0 Hnd Hfresh; simpl.
  - tauto.
  - inversion Hnd as [|? ? Hnotin Hnd']; subst. rewrite IH; [|assumption|].
    + rewrite map_find_map_set. simpl.
      destruct (String.eqb_spec a k) as [->|Hak].
      * assert (Hm0 : map_find k m0 = None) by (apply Hfresh; now left).
        rewrite Hm0. split.
        -- intros [H|H]; [now left; right | left; left; congruence].
        -- intros [[H|H]|H]; [right; congruence | now left | discriminate].
      * split.
        -- intros [H|H]; [now left; right | now right].
        -- intros [[H|H]|H]; [congruence | now left | now right].
    + intros k' Hk'. rewrite map_find_map_set. simpl.
      destruct (String.eqb_spec a k') as [->|_]; [contradiction|].
      apply Hfresh. now right.
Qed.

Lemma string_of_message (x : option sio_message) (v : string) :
  match x with
  | Some (string_message s) => Some s
  | _ => None
  end = Some v <-> x = Some (string_message v).
Proof.
  destruct x as [[s|i|l|m]|]; split; intros H; try discriminate H;
    injection H as ->; reflexivity.
Qed.

(** X21.  The attributes object of a publish payload holds the stream's
    attributes and nothing else: for a stream whose attribute keys are
    distinct, a key is mapped to a string exactly when the stream has that
    key with that value. *)
Theorem publish_payload_carries_the_attributes :
  forall (s : LocalStream.t) (audio_track_count video_track_count : nat)
         (k v : string),
    NoDup (map fst (LocalStream.Attributes s)) ->
    (string_member k
       (attributes_of (publish_options s audio_track_count video_track_count))
     = Some v <->
     In (k, v) (LocalStream.Attributes s)).
Proof.
  intros s na nv k v Hnd. unfold string_member, attributes_of, publish_options.
  simpl member. rewrite string_of_message.
  rewrite (attributes_fold (LocalStream.Attributes s) [] k v Hnd
             (fun _ _ => eq_refl)).
  simpl. split; [intros [H|H]; [assumption | discriminate H] | now left].
Qed.

Lemma publish_payload_carries_the_attributes_witness :
  NoDup (map fst (LocalStream.Attributes local_stream)) /\
  string_member "name" (attributes_of (publish_options local_stream 1 1)) = Some "cam".
Proof.
  assert (H : NoDup (map fst (LocalStream.Attributes local_stream))).
  { constructor; [intros []|constructor]. }
  split; [exact H|].
  apply (publish_payload_carries_the_attributes local_stream 1 1 "name" "cam" H).
  now left.
Defined.

(** ** Description failures *)

(** A stream error on a channel that only subscribes, the subscribe being
    resolved or its callback cleared. *)
Lemma OnStreamError_on_subscriber (w : World) (s : RemoteStream.t)
  (error_message : string) :
  published_stream_ (this w) = None ->
  subscribed_stream_ (this w) = Some s ->
  subscribe_success_callback_ (this w) = None ->
  OnStreamError error_message w =
  Done tt
    (with_trace
       (trace w ++
        map (fun its => ObserverOnStreamError its None error_message)
            (observers_ (this w)) ++
        [SendStreamEvent "unsubscribe" (session_id_ (this w)) None None] ++
        (if is_some (peer_connection_ (this w)) then [PcClose] else []))
       (with_this (set_peer_connection_ None (set_connected_ false (this w))) w)).
Proof.
  intros Hpub Hsub Hcb.
  destruct w as [c e q t p]. destruct c. simpl in *. subst.
  unfold OnStreamError. unfold bind at 1. unfold get_this at 1. simpl.
  unfold bind at 1. rewrite for_each_call. simpl.
  step. simpl. rewrite String.eqb_refl. simpl.
  destruct peer_connection_0; simpl; unfold with_trace, with_this; simpl;
    rewrite <- ?app_assoc; reflexivity.
Qed.

(** X22.  When setting the local or the remote description fails on a
    subscribing channel that has a failure callback, the callback is called
    in place, once, before the observers are notified; all callback slots
    are cleared; and because they are cleared first, the teardown goes
    through even if the subscribe was still in flight: the "unsubscribe"
    event is sent and the peer connection closed.  Nothing is posted to the
    task queue. *)
Theorem description_failure_reports_then_tears_down :
  forall (w : World) (s : RemoteStream.t) (callback : FailureCallback)
         (error : string),
    published_stream_ (this w) = None ->
    subscribed_stream_ (this w) = Some s ->
    failure_callback_ (this w) = Some callback ->
    let after (told : string) (what : string) :=
      Done tt
        (with_trace
           (trace w ++ [InvokeFailure callback told] ++
            map (fun its => ObserverOnStreamError its None what)
                (observers_ (this w)) ++
            [SendStreamEvent "unsubscribe" (session_id_ (this w)) None None] ++
            (if is_some (peer_connection_ (this w)) then [PcClose] else []))
           (with_this
              (set_peer_connection_ None
                 (set_connected_ false (callbacks_cleared (this w))))
              w)) in
    OnSetLocalSessionDescriptionFailure error w =
      after "Failed to set local description." "Failed to set local description." /\
    OnSetRemoteSessionDescriptionFailure error w =
      after "Fail to set remote description." "Failed to set remote description.".
Proof.
  intros w s callback error Hpub Hsub Hcb after. subst after.
  destruct w as [c e q t p]. destruct c. simpl in *. subst.
  split.
  - unfold OnSetLocalSessionDescriptionFailure, ResetCallbacks, bind, get_this,
      update, call. simpl.
    rewrite (OnStreamError_on_subscriber _ s) by reflexivity.
    simpl. unfold with_trace, with_this. simpl. now rewrite <- !app_assoc.
  - unfold OnSetRemoteSessionDescriptionFailure, ResetCallbacks, bind, get_this,
      update, call. simpl.
    rewrite (OnStreamError_on_subscriber _ s) by reflexivity.
    simpl. unfold with_trace, with_this. simpl. now rewrite <- !app_assoc.
Qed.

Lemma description_failure_reports_then_tears_down_witness :
  published_stream_ (this (subscribing_world sample_platform)) = None /\
  failure_callback_ (this (subscribing_world sample_platform)) = Some 2 /\
  trace (final_world (OnSetRemoteSessionDescriptionFailure "bad sdp"
                        (subscribing_world sample_platform))) =
  (trace (subscribing_world sample_platform) ++
   [InvokeFailure 2 "Fail to set remote description.";
    SendStreamEvent "unsubscribe" "session-9" None None;
    PcClose])%list.
Proof.
  split; [reflexivity|]. split; [reflexivity|].
  rewrite (proj2 (description_failure_reports_then_tears_down
                    (subscribing_world sample_platform) remote_stream 2 "bad sdp"
                    eq_refl eq_refl eq_refl)).
  reflexivity.
Defined.

(** ** Destruction and queued callbacks *)

(** X23.  The destructor always returns.  It posts no task and calls no
    callback; with a published stream held it leaves the peer connection
    closed and the channel not connected.  Afterwards [weak_this] is
    expired, so a success closure built by [RunInEventQueue] that the
    signaling channel calls later does nothing. *)
Theorem destructor_is_quiet :
  forall (w : World),
    exists w',
      destroy w = Done tt w' /\
      expired w' = true /\
      event_queue_ w' = event_queue_ w /\
      success_calls (trace w') = success_calls (trace w) /\
      (published_stream_ (this w) <> None ->
       peer_connection_ (this w') = None /\ connected_ (this w') = false) /\
      forall q, run_queued_callback q w' = Done tt w'.
Proof.
  intros w. destruct w as [c e q t p]. destruct c.
  unfold destroy. step. simpl.
  destruct published_stream_0, subscribed_stream_0, peer_connection_0,
    subscribe_success_callback_0; simpl; rewrite ?String.eqb_refl; simpl;
    rewrite ?String.eqb_refl; simpl;
    eexists; (split; [reflexivity|]); simpl;
    (split; [reflexivity|]); (split; [reflexivity|]);
    (split; [induction t as [|x t IH]; simpl;
             [reflexivity | destruct x; simpl; congruence]|]);
    (split; [first [intros _; split; reflexivity | intros H; congruence]|]);
    intros []; reflexivity.
Qed.

(** X24.  The success callback of [Unpublish] and [Unsubscribe] is handed to
    the signaling channel wrapped: calling the wrapper on a live channel
    runs nothing yet and posts one task, which calls the callback when the
    queue runs; on a destroyed channel the wrapper does nothing.  A null
    callback is passed on as null. *)
Theorem success_callbacks_go_through_the_queue :
  forall (w : World) (func : VoidCallback),
    RunInEventQueue None w = Done None w /\
    RunInEventQueue (Some func) w = Done (Some (InEventQueue func)) w /\
    (expired w = true -> run_queued_callback (InEventQueue func) w = Done tt w) /\
    (expired w = false ->
     run_queued_callback (InEventQueue func) w =
       Done tt (with_event_queue_ (event_queue_ w ++ [TaskRunFunc func]) w) /\
     (event_queue_ w = [] ->
      (run_queued_callback (InEventQueue func) ;; run_event_queue) w =
      Done tt (with_trace (trace w ++ [InvokeVoid func]) w))).
Proof.
  intros w func. split; [reflexivity|]. split; [reflexivity|].
  split; [apply queued_callback_on_expired_channel|].
  intros He. destruct w as [c e q t p]. simpl in He. subst.
  split; [reflexivity|]. simpl. intros ->. reflexivity.
Qed.

Lemma success_callbacks_go_through_the_queue_witness :
  expired (publishing_world sample_platform) = false /\
  event_queue_ (publishing_world sample_platform) = [] /\
  (run_queued_callback (InEventQueue 5) ;; run_event_queue)
    (publishing_world sample_platform) =
  Done tt (with_trace (trace (publishing_world sample_platform) ++ [InvokeVoid 5])
             (publishing_world sample_platform)).
Proof.
  split; [reflexivity|]. split; [reflexivity|].
  destruct (success_callbacks_go_through_the_queue
              (publishing_world sample_platform) 5) as [_ [_ [_ H]]].
  exact (proj2 (H eq_refl) eq_refl).
Defined.

(** ** Control messages *)

(** X25.  A control operation goes to the publication when a published
    stream is held, even if a subscribed stream is held too; to the
    subscription when only a subscribed stream is held; and with neither it
    sends nothing: the call fails its debug check where those are compiled
    in and returns silently where they are not. *)
Theorem control_messages_follow_the_role :
  forall (w : World) (in_action out_action operation : string)
         (on_success : option VoidCallback) (on_failure : option FailureCallback),
    let control :=
      SendStreamControlMessage in_action out_action operation on_success on_failure in
    (published_stream_ (this w) <> None ->
     control w =
     Done tt (with_trace
                (trace w ++
                 [SendStreamControlMessage_ (session_id_ (this w)) out_action
                    operation on_success on_failure]) w)) /\
    (published_stream_ (this w) = None ->
     subscribed_stream_ (this w) <> None ->
     control w =
     Done tt (with_trace
                (trace w ++
                 [SendSubscriptionControlMessage (session_id_ (this w)) in_action
                    operation on_success on_failure]) w)) /\
    (published_stream_ (this w) = None ->
     subscribed_stream_ (this w) = None ->
     control w =
     if rtc_dcheck_is_on (platform w) then Fatal DcheckFailed w else Done tt w).
Proof.
  intros w in_action out_action operation on_success on_failure control.
  subst control. destruct w as [c e q t p]. destruct c. simpl.
  unfold SendStreamControlMessage, RTC_DCHECK, bind, get_this, get_platform, call,
    ret, fatal. simpl.
  split; [|split].
  - intros H. destruct published_stream_0; [reflexivity | congruence].
  - intros -> H. destruct subscribed_stream_0; [reflexivity | congruence].
  - intros -> ->. simpl. destruct (rtc_dcheck_is_on p); reflexivity.
Qed.

Lemma control_messages_follow_the_role_witness :
  published_stream_ (this (subscribing_world sample_platform)) = None /\
  subscribed_stream_ (this (subscribing_world sample_platform)) <> None /\
  PauseVideo (Some 5) (Some 6) (subscribing_world sample_platform) =
  Done tt
    (with_trace
       (trace (subscribing_world sample_platform) ++
        [SendSubscriptionControlMessage "session-9" "video" "pause" (Some 5) (Some 6)])
       (subscribing_world sample_platform)).
Proof.
  assert (H : subscribed_stream_ (this (subscribing_world sample_platform)) <> None)
    by discriminate.
  split; [reflexivity|]. split; [exact H|].
  exact (proj1 (proj2 (control_messages_follow_the_role
                         (subscribing_world sample_platform) "video" "video" "pause"
                         (Some 5) (Some 6))) eq_refl H).
Defined.

Lemma destructor_is_quiet_witness :
  published_stream_ (this (publishing_world sample_platform)) <> None /\
  peer_connection_
    (this (final_world (destroy (publishing_world sample_platform)))) = None.
Proof.
  assert (H : published_stream_ (this (publishing_world sample_platform)) <> None)
    by discriminate.
  split; [exact H|].
  destruct (destructor_is_quiet (publishing_world sample_platform))
    as [w' [Hrun [_ [_ [_ [Hclosed _]]]]]].
  rewrite Hrun. exact (proj1 (Hclosed H)).
Defined.

(** ** Readiness flags across attempts *)

Lemma success_calls_app (t1 t2 : list Effect) :
  success_calls (t1 ++ t2) = (success_calls t1 ++ success_calls t2)%list.
Proof.
  induction t1 as [|e t1 IH]; simpl; [reflexivity|].
  destruct e; simpl; now rewrite ?IH.
Qed.

(** X26.  The stream-attached flag outlives a failed subscribe: if the
    stream was attached and the server then answered "failure", the failure
    callback fires and the callbacks are cleared, but the flag stays up, so
    on a later subscribe through the same channel the "success"
    acknowledgement alone fires the new success callback, without a new
    stream having been attached. *)
Theorem stream_flag_survives_failed_subscribe :
  forall (w : World) (callback callback' : SuccessCallback)
         (on_failure : FailureCallback) (on_failure' : option FailureCallback)
         (media : MediaStreamInterface.t) (s : RemoteStream.t)
         (o : SubscribeOptions.t),
    subscribe_success_callback_ (this w) = Some callback ->
    publish_success_callback_ (this w) = None ->
    failure_callback_ (this w) = Some on_failure ->
    connected_ (this w) = false ->
    sub_stream_added_ (this w) = false ->
    sub_server_ready_ (this w) = false ->
    event_queue_ w = [] ->
    expired w = false ->
    SubOptionAllowed o (RemoteStream.Settings s) (RemoteStream.Capabilities s) = true ->
    exists w1 w2,
      (OnAddStream media ;;
       OnSignalingMessage (Some (string_message "failure")) ;;
       run_event_queue) w = Done tt w1 /\
      success_calls (trace w1) = success_calls (trace w) /\
      sub_stream_added_ (this w1) = true /\
      (Subscribe (Some s) o (Some callback') on_failure' ;;
       OnSignalingMessage (Some (string_message "success")) ;;
       run_event_queue) w1 = Done tt w2 /\
      success_calls (trace w2) =
        (success_calls (trace w) ++ [(callback', session_id_ (this w))])%list /\
      sub_stream_added_ (this w2) = false.
Proof.
  intros w callback callback' on_failure on_failure' media s o
    Hsub Hpub Hfail Hconn Hadded Hready Hq Hexp Hok.
  destruct w as [c e q t p]. destruct c. simpl in *. subst.
  destruct subscribed_stream_0 as [old|].
  - eexists. eexists. split; [cbv -[app]; reflexivity|].
    split; [simpl; rewrite success_calls_app; simpl; now rewrite app_nil_r|].
    split; [reflexivity|].
    unfold bind at 1. rewrite Subscribe_on_stream, Hok. simpl.
    split; [cbv -[app subscribe_options_message receive_transceivers]; reflexivity|].
    split; [|reflexivity].
    simpl. rewrite !success_calls_app. simpl.
    unfold receive_transceivers.
    destruct (audio_wanted s o), (video_wanted s o); simpl;
      now rewrite ?app_nil_r, <- ?app_assoc.
  - eexists. eexists. split; [cbv -[app]; reflexivity|].
    split; [simpl; rewrite success_calls_app; simpl; now rewrite app_nil_r|].
    split; [reflexivity|].
    unfold bind at 1. rewrite Subscribe_on_stream, Hok. simpl.
    split; [cbv -[app subscribe_options_message receive_transceivers]; reflexivity|].
    split; [|reflexivity].
    simpl. rewrite !success_calls_app. simpl.
    unfold receive_transceivers.
    destruct (audio_wanted s o), (video_wanted s o); simpl;
      now rewrite ?app_nil_r, <- ?app_assoc.
Qed.

Lemma stream_flag_survives_failed_subscribe_witness :
  let w := subscribing_world sample_platform in
  subscribe_success_callback_ (this w) = Some 1 /\
  success_calls
    (trace
       (final_world
          ((OnAddStream sample_media ;;
            OnSignalingMessage (Some (string_message "failure")) ;;
            run_event_queue ;;
            Subscribe (Some remote_stream) default_options (Some 3) (Some 4) ;;
            OnSignalingMessage (Some (string_message "success")) ;;
            run_event_queue) w))) = [(3, "session-9")].
Proof.
  intros w. split; [reflexivity|].
  destruct (stream_flag_survives_failed_subscribe w 1 3 2 (Some 4) sample_media
              remote_stream default_options
              eq_refl eq_refl eq_refl eq_refl eq_refl eq_refl eq_refl eq_refl eq_refl)
    as [w1 [w2 [H1 [_ [_ [H2 [Hcalls _]]]]]]].
  assert (Hrun :
    (OnAddStream sample_media ;;
     OnSignalingMessage (Some (string_message "failure")) ;;
     run_event_queue ;;
     Subscribe (Some remote_stream) default_options (Some 3) (Some 4) ;;
     OnSignalingMessage (Some (string_message "success")) ;;
     run_event_queue) w = Done tt w2).
  { unfold bind in *.
    destruct (OnAddStream sample_media w) as [[] wa|]; [|discriminate H1].
    destruct (OnSignalingMessage (Some (string_message "failure")) wa)
      as [[] wb|]; [|discriminate H1].
    rewrite H1. exact H2. }
  rewrite Hrun. simpl final_world. rewrite Hcalls. reflexivity.
Defined.
